(** * Branch prediction unit of MARSS-RISCV (src/riscvsim/bpu.c)

    A shallow embedding of the coordinator that sits between the branch
    target buffer (BTB) and the optional adaptive predictor, together with
    the properties of its probe / get_target / add / update operations.

    The BTB, the adaptive predictor and the headers that declare the data
    types are separate compilation units.  Their functions are taken as an
    interface ([Collaborators]); the coordinator is translated statement by
    statement on top of it. *)

From stdpp Require Import base numbers list.

Local Open Scope Z_scope.

(** ** Constants defined in bpu.c *)

Definition PRED_NOT_TAKEN : Z := 0.
Definition PRED_TAKEN : Z := 1.
Definition BPU_MISS : Z := 0.
Definition BPU_HIT : Z := 1.

(** ** Data *)

(** The fields of a BTB entry that bpu.c reads. [target] is a
    [target_ulong], [type] and [pred] are [int]. *)
Record BtbEntry : Type := mkBtbEntry {
  target : Z;
  type : Z;
  pred : Z
}.

(** The per-privilege-level counters that bpu.c increments. *)
Record SimStats : Type := mkSimStats {
  btb_probes : Z;
  btb_hits : Z;
  btb_inserts : Z;
  btb_updates : Z
}.

(** The response packet filled by [bpu_probe]. [btb_entry] is a pointer
    into the storage of the BTB, kept as an address. *)
Record BPUResponsePkt : Type := mkBPUResponsePkt {
  ap_probe_status : Z;
  btb_probe_status : Z;
  bpu_probe_status : Z;
  btb_entry : Z
}.

Definition set_ap_probe_status (v : Z) (p : BPUResponsePkt) : BPUResponsePkt :=
  mkBPUResponsePkt v (btb_probe_status p) (bpu_probe_status p) (btb_entry p).
Definition set_btb_probe_status (v : Z) (p : BPUResponsePkt) : BPUResponsePkt :=
  mkBPUResponsePkt (ap_probe_status p) v (bpu_probe_status p) (btb_entry p).
Definition set_bpu_probe_status (v : Z) (p : BPUResponsePkt) : BPUResponsePkt :=
  mkBPUResponsePkt (ap_probe_status p) (btb_probe_status p) v (btb_entry p).
Definition set_btb_entry (v : Z) (p : BPUResponsePkt) : BPUResponsePkt :=
  mkBPUResponsePkt (ap_probe_status p) (btb_probe_status p) (bpu_probe_status p) v.

(** ** The collaborators

    Everything bpu.c calls or includes but does not define.  Each function
    takes the state of the structure it works on and returns the new state
    next to its C result, so that nothing is assumed about which of them
    mutate.  [btb_probe] receives the old value of the out-parameter
    [&p->btb_entry] and returns the new one.  [entry_at] is the memory of
    the BTB seen through a [BtbEntry *]: [None] where the address holds no
    entry. *)
Class Collaborators : Type := {
  BranchTargetBuffer : Type;
  AdaptivePredictor : Type;
  (** the two case labels of the switch in [bpu_get_target] *)
  BRANCH_UNCOND : Z;
  BRANCH_COND : Z;
  (** width in bits of a [SimStats] counter *)
  stat_bits : Z;
  btb_init : Z -> BranchTargetBuffer;
  btb_flush : BranchTargetBuffer -> BranchTargetBuffer;
  btb_probe : BranchTargetBuffer -> Z -> Z -> BranchTargetBuffer * Z * Z;
  btb_add : BranchTargetBuffer -> Z -> Z -> BranchTargetBuffer;
  btb_update : BranchTargetBuffer -> Z -> Z -> Z -> Z -> BranchTargetBuffer;
  entry_at : BranchTargetBuffer -> Z -> option BtbEntry;
  adaptive_predictor_init : Z -> AdaptivePredictor;
  adaptive_predictor_flush : AdaptivePredictor -> AdaptivePredictor;
  adaptive_predictor_probe : AdaptivePredictor -> Z -> AdaptivePredictor * Z;
  adaptive_predictor_get_prediction :
    AdaptivePredictor -> Z -> AdaptivePredictor * Z;
  adaptive_predictor_add : AdaptivePredictor -> Z -> AdaptivePredictor;
  adaptive_predictor_update : AdaptivePredictor -> Z -> Z -> AdaptivePredictor
}.

(** What the coordinator does to the outside, in program order: the calls
    into the collaborators and the reads through a [BtbEntry *]. *)
Inductive Event : Type :=
| EvBtbFlush
| EvBtbProbe (pc : Z)
| EvBtbAdd (pc ty : Z)
| EvBtbUpdate (entry tgt taken ty : Z)
| EvDeref (entry : Z)
| EvApFlush
| EvApProbe (pc : Z)
| EvApGetPrediction (pc : Z)
| EvApAdd (pc : Z)
| EvApUpdate (pc taken : Z).

Definition is_ap_event (e : Event) : bool :=
  match e with
  | EvApFlush | EvApProbe _ | EvApGetPrediction _ | EvApAdd _ | EvApUpdate _ _ => true
  | _ => false
  end.

Definition is_btb_event (e : Event) : bool :=
  match e with
  | EvBtbFlush | EvBtbProbe _ | EvBtbAdd _ _ | EvBtbUpdate _ _ _ _ => true
  | _ => false
  end.

Section Bpu.

Context `{!Collaborators}.

(** [ap = None] is the NULL pointer of bimodal mode. [stats] is the array
    of the simulator the unit points to, one record per privilege level. *)
Record BranchPredUnit : Type := mkBranchPredUnit {
  btb : BranchTargetBuffer;
  ap : option AdaptivePredictor;
  stats : list SimStats
}.

(** ** Outcomes and the monad the translation is written in *)

(** A call returns a value, the unit after it and the events it made, or
    it stops at [assert(0)], or it has no defined behaviour (a read
    through a pointer that holds no entry, an index outside [stats], a
    call on a NULL predictor). *)
Inductive Outcome (A : Type) : Type :=
| Ret (a : A) (u : BranchPredUnit) (tr : list Event)
| AssertFail
| Undefined.

Arguments Ret {A} a u tr.
Arguments AssertFail {A}.
Arguments Undefined {A}.

Definition M (A : Type) : Type := BranchPredUnit -> Outcome A.

Definition ret {A} (a : A) : M A := fun u => Ret a u [].

Definition bind {A B} (m : M A) (k : A -> M B) : M B :=
  fun u =>
    match m u with
    | Ret a u1 tr1 =>
        match k a u1 with
        | Ret b u2 tr2 => Ret b u2 (tr1 ++ tr2)
        | AssertFail => AssertFail
        | Undefined => Undefined
        end
    | AssertFail => AssertFail
    | Undefined => Undefined
    end.

Notation "'let*' x ':=' m 'in' k" := (bind m (fun x => k))
  (at level 10, x name, m at level 100, k at level 200).
Notation "'run' m 'then' k" := (bind m (fun _ => k))
  (at level 10, m at level 100, k at level 200).

Definition assert_fail {A} : M A := fun _ => AssertFail.

(** [u->ap] used as a condition. *)
Definition ap_present : M bool :=
  fun u => Ret (match ap u with Some _ => true | None => false end) u [].

(** [when c m] is [if (c) { m }]. *)
Definition when (c : bool) (m : M unit) : M unit := if c then m else ret tt.

(** *** Statistics *)

(** [++x] on a counter of [stat_bits] bits. *)
Definition incr (x : Z) : Z := (x + 1) mod 2 ^ stat_bits.

Definition incr_btb_probes (s : SimStats) : SimStats :=
  mkSimStats (incr (btb_probes s)) (btb_hits s) (btb_inserts s) (btb_updates s).
Definition incr_btb_hits (s : SimStats) : SimStats :=
  mkSimStats (btb_probes s) (incr (btb_hits s)) (btb_inserts s) (btb_updates s).
Definition incr_btb_inserts (s : SimStats) : SimStats :=
  mkSimStats (btb_probes s) (btb_hits s) (incr (btb_inserts s)) (btb_updates s).
Definition incr_btb_updates (s : SimStats) : SimStats :=
  mkSimStats (btb_probes s) (btb_hits s) (btb_inserts s) (incr (btb_updates s)).

(** [u->stats[priv]], where it exists. *)
Definition stats_at (u : BranchPredUnit) (priv : Z) : option SimStats :=
  if priv <? 0 then None else stats u !! Z.to_nat priv.

(** [++(u->stats[priv].field)] *)
Definition stat_incr (priv : Z) (f : SimStats -> SimStats) : M unit :=
  fun u =>
    match stats_at u priv with
    | Some s =>
        Ret tt (mkBranchPredUnit (btb u) (ap u) (<[Z.to_nat priv := f s]> (stats u))) []
    | None => Undefined
    end.

(** *** Reads through a [BtbEntry *] *)

Definition deref (e : Z) : M BtbEntry :=
  fun u =>
    match entry_at (btb u) e with
    | Some ent => Ret ent u [EvDeref e]
    | None => Undefined
    end.

(** *** Calls into the BTB *)

Definition call_btb_flush : M unit :=
  fun u => Ret tt (mkBranchPredUnit (btb_flush (btb u)) (ap u) (stats u)) [EvBtbFlush].

Definition call_btb_probe (pc old : Z) : M (Z * Z) :=
  fun u =>
    let '(b, st, e) := btb_probe (btb u) pc old in
    Ret (st, e) (mkBranchPredUnit b (ap u) (stats u)) [EvBtbProbe pc].

Definition call_btb_add (pc ty : Z) : M unit :=
  fun u =>
    Ret tt (mkBranchPredUnit (btb_add (btb u) pc ty) (ap u) (stats u)) [EvBtbAdd pc ty].

Definition call_btb_update (e tgt taken ty : Z) : M unit :=
  fun u =>
    Ret tt (mkBranchPredUnit (btb_update (btb u) e tgt taken ty) (ap u) (stats u))
      [EvBtbUpdate e tgt taken ty].

(** *** Calls into the adaptive predictor, through [u->ap] *)

Definition call_ap_flush : M unit :=
  fun u =>
    match ap u with
    | Some a =>
        Ret tt (mkBranchPredUnit (btb u) (Some (adaptive_predictor_flush a)) (stats u))
          [EvApFlush]
    | None => Undefined
    end.

Definition call_ap_probe (pc : Z) : M Z :=
  fun u =>
    match ap u with
    | Some a =>
        let '(a', r) := adaptive_predictor_probe a pc in
        Ret r (mkBranchPredUnit (btb u) (Some a') (stats u)) [EvApProbe pc]
    | None => Undefined
    end.

Definition call_ap_get_prediction (pc : Z) : M Z :=
  fun u =>
    match ap u with
    | Some a =>
        let '(a', r) := adaptive_predictor_get_prediction a pc in
        Ret r (mkBranchPredUnit (btb u) (Some a') (stats u)) [EvApGetPrediction pc]
    | None => Undefined
    end.

Definition call_ap_add (pc : Z) : M unit :=
  fun u =>
    match ap u with
    | Some a =>
        Ret tt (mkBranchPredUnit (btb u) (Some (adaptive_predictor_add a pc)) (stats u))
          [EvApAdd pc]
    | None => Undefined
    end.

Definition call_ap_update (pc taken : Z) : M unit :=
  fun u =>
    match ap u with
    | Some a =>
        Ret tt
          (mkBranchPredUnit (btb u) (Some (adaptive_predictor_update a pc taken)) (stats u))
          [EvApUpdate pc taken]
    | None => Undefined
    end.

(** ** bpu.c *)

(** [bpu_init]: [bpu_type] is the field of [SimParams] read here, [params]
    stands for the rest of it, [s] is the statistics array. *)
Definition bpu_init (bpu_type params : Z) (s : list SimStats) : BranchPredUnit :=
  mkBranchPredUnit (btb_init params)
    (if bpu_type =? 0 then None else Some (adaptive_predictor_init params))
    s.

Definition bpu_flush : M unit :=
  run call_btb_flush then
  let* a := ap_present in
  when a call_ap_flush.

(** C's [a && b] on two [int]s. *)
Definition c_and (a b : Z) : Z :=
  if a =? 0 then 0 else if b =? 0 then 0 else 1.

(** The guard of the second [if] of [bpu_probe], evaluated left to right
    with the short circuits of [&&] and [||]. *)
Definition probe_guard (p : BPUResponsePkt) : M bool :=
  let* a := ap_present in
  if a : bool then
    if btb_probe_status p =? BPU_MISS then ret true
    else
      let* ent := deref (btb_entry p) in
      ret (type ent =? BRANCH_COND)
  else ret false.

Definition bpu_probe (pc : Z) (p : BPUResponsePkt) (priv : Z) : M BPUResponsePkt :=
  let p := set_ap_probe_status BPU_HIT p in
  let* r := call_btb_probe pc (btb_entry p) in
  let p := set_btb_probe_status (fst r) (set_btb_entry (snd r) p) in
  run when (btb_probe_status p =? BPU_HIT) (stat_incr priv incr_btb_hits) then
  run stat_incr priv incr_btb_probes then
  let* g := probe_guard p in
  let* p := (if g : bool
             then let* r := call_ap_probe pc in ret (set_ap_probe_status r p)
             else ret p) in
  ret (set_bpu_probe_status (c_and (btb_probe_status p) (ap_probe_status p)) p).

(** [return btb_entry->target;] *)
Definition return_target (btb_entry : Z) : M Z :=
  let* ent := deref btb_entry in
  ret (target ent).

Definition bpu_get_target (pc : Z) (btb_entry : Z) : M Z :=
  let* ent := deref btb_entry in
  if type ent =? BRANCH_UNCOND then return_target btb_entry
  else if type ent =? BRANCH_COND then
    let* a := ap_present in
    if a : bool then
      let* r := call_ap_get_prediction pc in
      if r =? 0 then ret 0 else return_target btb_entry
    else
      let* ent := deref btb_entry in
      if 1 <? pred ent then return_target btb_entry else ret 0
  else assert_fail.

Definition bpu_add (pc ty : Z) (p : BPUResponsePkt) (priv : Z) : M unit :=
  run when (btb_probe_status p =? 0)
        (run call_btb_add pc ty then stat_incr priv incr_btb_inserts) then
  let* a := ap_present in
  when (a && (ty =? BRANCH_COND))
    (when (ap_probe_status p =? 0) (call_ap_add pc)).

Definition bpu_update (pc tgt taken ty : Z) (p : BPUResponsePkt) (priv : Z) : M unit :=
  run when (negb (btb_probe_status p =? 0))
        (run call_btb_update (btb_entry p) tgt taken ty then
         stat_incr priv incr_btb_updates) then
  let* a := ap_present in
  when (a && (ty =? BRANCH_COND))
    (when (negb (ap_probe_status p =? 0)) (call_ap_update pc taken)).

(** The fetch stage probing one address after the other at one privilege
    level, with the same packet. *)
Fixpoint bpu_probe_all (pcs : list Z) (p : BPUResponsePkt) (priv : Z) : M BPUResponsePkt :=
  match pcs with
  | [] => ret p
  | pc :: rest =>
      let* p1 := bpu_probe pc p priv in
      bpu_probe_all rest p1 priv
  end.

(** ** What the coordinator expects of its collaborators and callers *)

(** A probe status is one of the two values bpu.c defines. *)
Definition status_ok (s : Z) : Prop := s = BPU_HIT \/ s = BPU_MISS.

(** [btb_probe] answers HIT or MISS, and on HIT the pointer it stores
    holds an entry.  Nothing is asked of the pointer on MISS. *)
Definition btb_probe_contract : Prop :=
  forall b pc old b1 st e,
    btb_probe b pc old = (b1, st, e) ->
    status_ok st /\ (st = BPU_HIT -> is_Some (entry_at b1 e)).

(** [adaptive_predictor_probe] answers HIT or MISS. *)
Definition ap_probe_contract : Prop :=
  forall a pc, status_ok (adaptive_predictor_probe a pc).2.

(** A packet whose two probe statuses are HIT or MISS. *)
Definition response_ok (p : BPUResponsePkt) : Prop :=
  status_ok (btb_probe_status p) /\ status_ok (ap_probe_status p).

(** [priv] indexes an element of [u->stats]. *)
Definition valid_priv (u : BranchPredUnit) (priv : Z) : Prop :=
  is_Some (stats_at u priv).

End Bpu.

Arguments Ret {_ A} a u tr.
Arguments AssertFail {_ A}.
Arguments Undefined {_ A}.

(** ** A smallest instance of the interface

    A BTB and an adaptive predictor of one slot each, to run the
    coordinator on concrete inputs.  The slot of the BTB lives at address
    [toy_slot]; a new entry starts with target 0 and counter 1; counters
    saturate in [0,3]. *)

Definition toy_slot : Z := 8.

Definition sat_counter (c taken : Z) : Z :=
  if taken =? 0 then Z.max 0 (c - 1) else Z.min 3 (c + 1).

Definition toy_btb_probe (b : option (Z * BtbEntry)) (pc old : Z)
  : option (Z * BtbEntry) * Z * Z :=
  match b with
  | Some (tag, _) => if tag =? pc then (b, BPU_HIT, toy_slot) else (b, BPU_MISS, 0)
  | None => (b, BPU_MISS, 0)
  end.

Definition toy_entry_at (b : option (Z * BtbEntry)) (e : Z) : option BtbEntry :=
  if e =? toy_slot then snd <$> b else None.

Definition toy_btb_update (b : option (Z * BtbEntry)) (e tgt taken ty : Z)
  : option (Z * BtbEntry) :=
  match b with
  | Some (tag, ent) =>
      if e =? toy_slot
      then Some (tag, mkBtbEntry tgt ty (sat_counter (pred ent) taken))
      else b
  | None => b
  end.

Definition toy_ap_probe (a : option (Z * Z)) (pc : Z) : option (Z * Z) * Z :=
  match a with
  | Some (tag, _) => (a, if tag =? pc then BPU_HIT else BPU_MISS)
  | None => (a, BPU_MISS)
  end.

Definition toy_ap_get_prediction (a : option (Z * Z)) (pc : Z) : option (Z * Z) * Z :=
  match a with
  | Some (tag, c) =>
      (a, if (tag =? pc) && (1 <? c) then PRED_TAKEN else PRED_NOT_TAKEN)
  | None => (a, PRED_NOT_TAKEN)
  end.

Definition toy_ap_update (a : option (Z * Z)) (pc taken : Z) : option (Z * Z) :=
  match a with
  | Some (tag, c) => if tag =? pc then Some (tag, sat_counter c taken) else a
  | None => a
  end.

Definition toy : Collaborators := {|
  BranchTargetBuffer := option (Z * BtbEntry);
  AdaptivePredictor := option (Z * Z);
  BRANCH_UNCOND := 0;
  BRANCH_COND := 1;
  stat_bits := 64;
  btb_init := fun _ => None;
  btb_flush := fun _ => None;
  btb_probe := toy_btb_probe;
  btb_add := fun _ pc ty => Some (pc, mkBtbEntry 0 ty 1);
  btb_update := toy_btb_update;
  entry_at := toy_entry_at;
  adaptive_predictor_init := fun _ => None;
  adaptive_predictor_flush := fun _ => None;
  adaptive_predictor_probe := toy_ap_probe;
  adaptive_predictor_get_prediction := toy_ap_get_prediction;
  adaptive_predictor_add := fun _ pc => Some (pc, 1);
  adaptive_predictor_update := toy_ap_update
|}.

Definition zero_stats : SimStats := mkSimStats 0 0 0 0.

(** A toy unit holding [ent] for address [tag], with or without an
    adaptive predictor, and statistics for four privilege levels. *)
Definition toy_unit (tag : Z) (ent : BtbEntry) (a : option (option (Z * Z)))
  : @BranchPredUnit toy :=
  @mkBranchPredUnit toy (Some (tag, ent)) a (replicate 4 zero_stats).

(** A toy unit with nothing in the BTB. *)
Definition toy_empty_unit (a : option (option (Z * Z))) : @BranchPredUnit toy :=
  @mkBranchPredUnit toy None a (replicate 4 zero_stats).

Definition empty_pkt : BPUResponsePkt := mkBPUResponsePkt 0 0 0 0.

(** A packet as a probe that hit in both structures leaves it. *)
Definition hit_pkt : BPUResponsePkt := mkBPUResponsePkt BPU_HIT BPU_HIT BPU_HIT toy_slot.

(** Entries for the examples: type 0 is [BRANCH_UNCOND] and type 1 is
    [BRANCH_COND] in the toy instance. *)
Definition uncond_entry : BtbEntry := mkBtbEntry 20480 0 0.
Definition uncond_entry_target0 : BtbEntry := mkBtbEntry 0 0 3.
Definition cond_entry : BtbEntry := mkBtbEntry 8192 1 2.
Definition cond_entry_weak : BtbEntry := mkBtbEntry 8192 1 0.
Definition cond_entry_target0_strong : BtbEntry := mkBtbEntry 0 1 3.
Definition cond_entry_target0_weak : BtbEntry := mkBtbEntry 0 1 0.
Definition bad_entry : BtbEntry := mkBtbEntry 8192 7 2.

(** ** Callers

    The pipeline calls the unit in any order, each call with a packet of
    its own choice.  An [Op] is one such call; [run_ops] makes them one
    after the other on the same unit and drops what they return. *)
Inductive Op : Type :=
| OpFlush
| OpProbe (pc : Z) (p : BPUResponsePkt) (priv : Z)
| OpGetTarget (pc entry : Z)
| OpAdd (pc ty : Z) (p : BPUResponsePkt) (priv : Z)
| OpUpdate (pc tgt taken ty : Z) (p : BPUResponsePkt) (priv : Z).

Definition is_probe_at (q : Z) (o : Op) : bool :=
  match o with OpProbe _ _ priv => priv =? q | _ => false end.
Definition is_add_at (q : Z) (o : Op) : bool :=
  match o with OpAdd _ _ _ priv => priv =? q | _ => false end.
Definition is_update_at (q : Z) (o : Op) : bool :=
  match o with OpUpdate _ _ _ _ _ priv => priv =? q | _ => false end.


(** How many calls of a list satisfy [f]. *)
Definition count_ops (f : Op -> bool) (os : list Op) : Z :=
  Z.of_nat (length (filter (fun o => f o = true) os)).

Section Caller.

Context `{!Collaborators}.

Definition run_op (o : Op) : M unit :=
  match o with
  | OpFlush => bpu_flush
  | OpProbe pc p priv => bind (bpu_probe pc p priv) (fun _ => ret tt)
  | OpGetTarget pc e => bind (bpu_get_target pc e) (fun _ => ret tt)
  | OpAdd pc ty p priv => bpu_add pc ty p priv
  | OpUpdate pc tgt taken ty p priv => bpu_update pc tgt taken ty p priv
  end.

Fixpoint run_ops (os : list Op) : M unit :=
  match os with
  | [] => ret tt
  | o :: rest => bind (run_op o) (fun _ => run_ops rest)
  end.

(** [m] relates by [R] the unit before a call that returns, the unit after
    it and the events of the call. *)
Definition keeps {A} (R : BranchPredUnit -> BranchPredUnit -> list Event -> Prop)
    (m : M A) : Prop :=
  forall u a u1 tr, m u = Ret a u1 tr -> R u u1 tr.

(** [R] holds of a call that does nothing and of two calls in a row. *)
Definition frame_rel (R : BranchPredUnit -> BranchPredUnit -> list Event -> Prop)
  : Prop :=
  (forall u, R u u []) /\
  (forall u u1 u2 t1 t2, R u u1 t1 -> R u1 u2 t2 -> R u u2 (t1 ++ t2)).


(** The four counters of [s] are not negative and can take [n] more
    increments without wrapping. *)
Definition counters_below (n : Z) (s : SimStats) : Prop :=
  (0 <= btb_probes s /\ btb_probes s + n < 2 ^ stat_bits) /\
  (0 <= btb_hits s /\ btb_hits s + n < 2 ^ stat_bits) /\
  (0 <= btb_inserts s /\ btb_inserts s + n < 2 ^ stat_bits) /\
  (0 <= btb_updates s /\ btb_updates s + n < 2 ^ stat_bits).

(** Both flushes of the collaborators give the same state when repeated. *)
Definition flush_idempotent : Prop :=
  (forall b, btb_flush (btb_flush b) = btb_flush b) /\
  (forall a, adaptive_predictor_flush (adaptive_predictor_flush a)
             = adaptive_predictor_flush a).

End Caller.

(** A probe, an add and an update of a conditional branch at level 0, a
    probe at level 1, a target read and a flush. *)
Definition toy_calls : list Op :=
  [OpProbe 4096 empty_pkt 0;
   OpAdd 4096 1 empty_pkt 0;
   OpProbe 4096 empty_pkt 1;
   OpUpdate 4096 8192 1 1 hit_pkt 0;
   OpGetTarget 4096 toy_slot;
   OpFlush].


(** * Properties *)

Section Properties.

#[local] Set Warnings "-clear-no-such-hyp".

Context `{!Collaborators}.

Implicit Types (u : BranchPredUnit) (p : BPUResponsePkt) (pc priv : Z).

Ltac unfold_bpu :=
  unfold bpu_probe, bpu_get_target, bpu_add, bpu_update, bpu_flush,
    probe_guard, return_target, when, bind, ret, ap_present, deref,
    stat_incr, assert_fail, call_btb_flush, call_btb_probe, call_btb_add,
    call_btb_update, call_ap_flush, call_ap_probe, call_ap_get_prediction,
    call_ap_add, call_ap_update in *.

Lemma stats_at_insert u priv s b a f :
  stats_at u priv = Some s ->
  stats_at (mkBranchPredUnit b a (<[Z.to_nat priv := f]> (stats u))) priv = Some f.
Proof.
  unfold stats_at; simpl. destruct (priv <? 0); [done|].
  intros Hs. apply list_lookup_insert_eq. by eapply lookup_lt_Some.
Qed.

Lemma c_and_hit a b :
  status_ok a -> status_ok b ->
  c_and a b = BPU_HIT <-> a = BPU_HIT /\ b = BPU_HIT.
Proof.
  unfold status_ok, c_and, BPU_HIT, BPU_MISS.
  intros [->| ->] [->| ->]; simpl; intuition congruence.
Qed.

Lemma stat_incr_run u priv s f :
  stats_at u priv = Some s ->
  stat_incr priv f u =
    Ret tt (mkBranchPredUnit (btb u) (ap u) (<[Z.to_nat priv := f s]> (stats u))) [].
Proof. intros Hs. unfold stat_incr. by rewrite Hs. Qed.

Lemma bpu_probe_cases u pc p priv b st e s :
  btb_probe (btb u) pc (btb_entry p) = (b, st, e) ->
  stats_at u priv = Some s ->
  status_ok st ->
  (st = BPU_HIT -> is_Some (entry_at b e)) ->
  let s1 := incr_btb_probes (if st =? BPU_HIT then incr_btb_hits s else s) in
  let sts := <[Z.to_nat priv := s1]> (stats u) in
  ((ap u = None \/
    (st = BPU_HIT /\ exists ent, entry_at b e = Some ent /\ type ent <> BRANCH_COND)) /\
   bpu_probe pc p priv u =
     Ret (mkBPUResponsePkt BPU_HIT st (c_and st BPU_HIT) e)
       (mkBranchPredUnit b (ap u) sts)
       (EvBtbProbe pc :: if ap u is Some _ then [EvDeref e] else []))
  \/
  (exists a,
     ap u = Some a /\
     (st = BPU_MISS \/
      (st = BPU_HIT /\ exists ent, entry_at b e = Some ent /\ type ent = BRANCH_COND)) /\
     bpu_probe pc p priv u =
       Ret (mkBPUResponsePkt (adaptive_predictor_probe a pc).2 st
              (c_and st (adaptive_predictor_probe a pc).2) e)
         (mkBranchPredUnit b (Some (adaptive_predictor_probe a pc).1) sts)
         (EvBtbProbe pc :: (if st =? BPU_MISS then [] else [EvDeref e])
            ++ [EvApProbe pc])).
Proof.
  intros Hp Hs Hst Hent s1 sts.
  assert (Hs0 : forall b0 a0,
    stats_at (mkBranchPredUnit b0 a0 (stats u)) priv = Some s) by done.
  assert (Hs1 : forall b0 a0 f,
    stats_at (mkBranchPredUnit b0 a0 (<[Z.to_nat priv := f]> (stats u))) priv = Some f).
  { intros. by eapply stats_at_insert. }
  unfold_bpu. simpl. rewrite Hp. simpl.
  destruct Hst as [-> | ->]; simpl.
  - rewrite Hs0. simpl. rewrite Hs1. simpl. rewrite list_insert_insert_eq.
    destruct (Hent eq_refl) as [ent Hentry].
    destruct (ap u) as [a|] eqn:Hap; simpl.
    + rewrite Hentry. simpl.
      destruct (type ent =? BRANCH_COND) eqn:Hty; simpl.
      * right. exists a. simpl.
        destruct (adaptive_predictor_probe a pc) as [a1 r] eqn:Hq. simpl.
        split; [done|]. split; [|done].
        right. split; [done|]. exists ent. split; [done|]. lia.
      * left. split; [|done].
        right. split; [done|]. exists ent. split; [done|]. lia.
    + left. split; [by left|done].
  - rewrite Hs0. simpl.
    destruct (ap u) as [a|] eqn:Hap; simpl.
    + right. exists a. simpl.
      destruct (adaptive_predictor_probe a pc) as [a1 r] eqn:Hq. simpl.
      split; [done|]. split; [by left|done].
    + left. split; [by left|done].
Qed.

(** [bpu_init] builds an adaptive predictor exactly for a non-zero
    [bpu_type], and binds the statistics it is given. *)
Lemma bpu_init_mode bpu_type params s :
  (ap (bpu_init bpu_type params s) = None <-> bpu_type = 0) /\
  stats (bpu_init bpu_type params s) = s.
Proof.
  unfold bpu_init. simpl. destruct (Z.eqb_spec bpu_type 0); naive_solver.
Qed.

(** [bpu_flush] resets both structures and leaves the statistics alone. *)
Lemma bpu_flush_run u :
  exists tr,
    bpu_flush u =
      Ret tt (mkBranchPredUnit (btb_flush (btb u))
                (adaptive_predictor_flush <$> ap u) (stats u)) tr.
Proof.
  unfold_bpu. destruct u as [b [a|] sts]; simpl; by eexists.
Qed.

Lemma hit_not_miss : BPU_HIT <> BPU_MISS.
Proof. done. Qed.

(** Every case of [bpu_probe_cases] at once, in the shape the theorems
    below consume. *)
Ltac probe_cases Hbtb Hs :=
  let b := fresh "b" in
  let st := fresh "st" in
  let e := fresh "e" in
  let Hp := fresh "Hp" in
  let Hst := fresh "Hst" in
  let Hent := fresh "Hent" in
  let Hc := fresh "Hc" in
  let Ha := fresh "Ha" in
  let a := fresh "a" in
  let Hrun := fresh "Hrun" in
  match goal with
  | |- context [bpu_probe ?pc ?p ?priv ?u] =>
      destruct (btb_probe (btb u) pc (btb_entry p)) as [[b st] e] eqn:Hp;
      destruct (Hbtb _ _ _ _ _ _ Hp) as [Hst Hent];
      destruct (bpu_probe_cases u pc p priv b st e _ Hp Hs Hst Hent)
        as [[Hc Hrun] | (a & Ha & Hc & Hrun)];
      rewrite Hrun
  end.

(** C1. In [bpu_probe] the field [ap_probe_status] is first set to HIT,
    whatever the packet held; [adaptive_predictor_probe] is called, and its
    result stored in [ap_probe_status], exactly when the unit has an
    adaptive predictor and the BTB lookup missed or hit an entry of type
    [BRANCH_COND]; otherwise [ap_probe_status] is HIT on return. *)
Theorem bpu_probe_ap_requery u pc p priv :
  btb_probe_contract -> valid_priv u priv ->
  exists p1 u1 tr,
    bpu_probe pc p priv u = Ret p1 u1 tr /\
    btb_probe (btb u) pc (btb_entry p)
      = (btb u1, btb_probe_status p1, btb_entry p1) /\
    (In (EvApProbe pc) tr <->
       is_Some (ap u) /\
       (btb_probe_status p1 = BPU_MISS \/
        (btb_probe_status p1 = BPU_HIT /\
         exists ent, entry_at (btb u1) (btb_entry p1) = Some ent /\
                     type ent = BRANCH_COND))) /\
    (In (EvApProbe pc) tr ->
       exists a, ap u = Some a /\
                 ap_probe_status p1 = (adaptive_predictor_probe a pc).2) /\
    (~ In (EvApProbe pc) tr -> ap_probe_status p1 = BPU_HIT) /\
    (forall v, bpu_probe pc (set_ap_probe_status v p) priv u
               = bpu_probe pc p priv u).
Proof.
  intros Hbtb [s Hs].
  assert (Hinit : forall v, bpu_probe pc (set_ap_probe_status v p) priv u
                            = bpu_probe pc p priv u) by reflexivity.
  probe_cases Hbtb Hs.
  - do 3 eexists. split; [reflexivity|]. simpl. split; [done|].
    assert (Hno : ~ In (EvApProbe pc)
                    (EvBtbProbe pc :: if ap u is Some _ then [EvDeref e] else [])).
    { destruct (ap u); simpl; intuition discriminate. }
    split; [|repeat split; try done; intros v; by rewrite Hinit].
    split; [done|].
    intros [[a Ha] Hq]. exfalso.
    destruct Hc as [Hc | (-> & ent & He & Hty)]; [congruence|].
    destruct Hq as [Hq | (_ & ent' & He' & Hty')]; [done|]. congruence.
  - do 3 eexists. split; [reflexivity|]. simpl. split; [done|].
    assert (Hyes : In (EvApProbe pc)
      (EvBtbProbe pc :: (if st =? BPU_MISS then [] else [EvDeref e]) ++ [EvApProbe pc])).
    { right. apply in_or_app. right. by left. }
    split; [split; [intros _; by rewrite Ha | done]|].
    split; [intros _; by exists a|].
    split; [intros Hn; by destruct Hn|].
    intros v. by rewrite Hinit.
Qed.

(** C2. The [bpu_probe_status] that [bpu_probe] leaves in the packet is
    HIT exactly when [btb_probe_status] and [ap_probe_status] are both
    HIT. *)
Theorem bpu_probe_status_is_conjunction u pc p priv :
  btb_probe_contract -> ap_probe_contract -> valid_priv u priv ->
  exists p1 u1 tr,
    bpu_probe pc p priv u = Ret p1 u1 tr /\
    (bpu_probe_status p1 = BPU_HIT <->
     btb_probe_status p1 = BPU_HIT /\ ap_probe_status p1 = BPU_HIT).
Proof.
  intros Hbtb Hap [s Hs]. probe_cases Hbtb Hs.
  - do 3 eexists. split; [reflexivity|]. simpl.
    apply c_and_hit; [done | by left].
  - do 3 eexists. split; [reflexivity|]. simpl.
    apply c_and_hit; [done | apply Hap].
Qed.

(** C10. [bpu_probe] returns for every [pc] as long as [btb_probe] hands
    back an entry on HIT; a read through [p->btb_entry] happens only when
    the lookup was a HIT, so after a MISS the pointer is never followed,
    whether or not it holds an entry. *)
Theorem bpu_probe_deref_only_on_hit u pc p priv :
  btb_probe_contract -> valid_priv u priv ->
  exists p1 u1 tr,
    bpu_probe pc p priv u = Ret p1 u1 tr /\
    btb_probe (btb u) pc (btb_entry p)
      = (btb u1, btb_probe_status p1, btb_entry p1) /\
    (forall e, In (EvDeref e) tr ->
       btb_probe_status p1 = BPU_HIT /\ e = btb_entry p1 /\
       is_Some (entry_at (btb u1) e)) /\
    (btb_probe_status p1 = BPU_MISS -> forall e, ~ In (EvDeref e) tr).
Proof.
  intros Hbtb [s Hs].
  assert (Hmain : exists p1 u1 tr,
    bpu_probe pc p priv u = Ret p1 u1 tr /\
    btb_probe (btb u) pc (btb_entry p)
      = (btb u1, btb_probe_status p1, btb_entry p1) /\
    (forall e, In (EvDeref e) tr ->
       btb_probe_status p1 = BPU_HIT /\ e = btb_entry p1 /\
       is_Some (entry_at (btb u1) e))).
  { probe_cases Hbtb Hs.
    - do 3 eexists. split; [reflexivity|]. simpl. split; [done|].
      intros e0 [Hd | Hd]; [discriminate|].
      destruct Hc as [Hc | (-> & ent & He & _)].
      + rewrite Hc in Hd. destruct Hd.
      + destruct (ap u); [|destruct Hd].
        destruct Hd as [[= <-] | []]. rewrite He. eauto.
    - do 3 eexists. split; [reflexivity|]. simpl. split; [done|].
      intros e0 [Hd | Hd]; [discriminate|].
      apply in_app_or in Hd as [Hd | [Hd | []]]; [|discriminate].
      destruct Hc as [-> | (-> & ent & He & _)]; simpl in Hd; [destruct Hd|].
      destruct Hd as [[= <-] | []]. rewrite He. eauto. }
  destruct Hmain as (p1 & u1 & tr & Hrun & Hlook & Hderef).
  exists p1, u1, tr. do 3 (split; [done|]).
  intros Hmiss e Hd. apply Hderef in Hd as [Hhit _].
  rewrite Hmiss in Hhit. by apply hit_not_miss.
Qed.

Lemma incr_no_overflow x :
  0 <= x -> x + 1 < 2 ^ stat_bits -> incr x = x + 1.
Proof. intros. unfold incr. apply Z.mod_small. lia. Qed.

Lemma incr_mod k : incr (k mod 2 ^ stat_bits) = (k + 1) mod 2 ^ stat_bits.
Proof. unfold incr. apply Zplus_mod_idemp_l. Qed.

(** One probe, seen from the statistics of its privilege level. *)
Lemma bpu_probe_stats u pc p priv s :
  btb_probe_contract -> stats_at u priv = Some s ->
  exists p1 u1 tr,
    bpu_probe pc p priv u = Ret p1 u1 tr /\
    btb_probe (btb u) pc (btb_entry p)
      = (btb u1, btb_probe_status p1, btb_entry p1) /\
    stats_at u1 priv
      = Some (incr_btb_probes
                (if btb_probe_status p1 =? BPU_HIT then incr_btb_hits s else s)).
Proof.
  intros Hbtb Hs. probe_cases Hbtb Hs.
  - do 3 eexists. split; [reflexivity|]. simpl. split; [done|].
    by eapply stats_at_insert.
  - do 3 eexists. split; [reflexivity|]. simpl. split; [done|].
    by eapply stats_at_insert.
Qed.

(** After [length pcs] more probes the two counters have moved from [k]
    and [h] (modulo the counter width) to [k + length pcs] and to some
    [h1] that grew by at most [length pcs]. *)
Lemma bpu_probe_all_counts priv pcs :
  btb_probe_contract ->
  forall u p s k h,
    stats_at u priv = Some s ->
    btb_probes s = k mod 2 ^ stat_bits ->
    btb_hits s = h mod 2 ^ stat_bits ->
    exists p1 u1 tr s1 h1,
      bpu_probe_all pcs p priv u = Ret p1 u1 tr /\
      stats_at u1 priv = Some s1 /\
      btb_probes s1 = (k + Z.of_nat (length pcs)) mod 2 ^ stat_bits /\
      btb_hits s1 = h1 mod 2 ^ stat_bits /\
      h <= h1 <= h + Z.of_nat (length pcs).
Proof.
  intros Hbtb. induction pcs as [|pc pcs IH]; intros u p s k h Hs Hk Hh.
  - exists p, u, [], s, h. simpl. rewrite Z.add_0_r. repeat split; try done; lia.
  - destruct (bpu_probe_stats u pc p priv s Hbtb Hs)
      as (p1 & u1 & tr1 & Hrun & _ & Hs1).
    set (h' := if btb_probe_status p1 =? BPU_HIT then h + 1 else h).
    destruct (IH u1 p1 _ (k + 1) h' Hs1) as (p2 & u2 & tr2 & s2 & h2 & Hrun2 & Hs2 & Hk2 & Hh2 & Hle).
    + simpl. destruct (btb_probe_status p1 =? BPU_HIT); simpl; rewrite Hk; apply incr_mod.
    + subst h'. destruct (btb_probe_status p1 =? BPU_HIT); simpl; [|done].
      rewrite Hh. apply incr_mod.
    + exists p2, u2, (tr1 ++ tr2), s2, h2.
      split. { simpl. unfold bind. by rewrite Hrun, Hrun2. }
      split; [done|]. split. { rewrite Hk2. f_equal. simpl length. lia. }
      split; [done|]. subst h'. simpl length.
      destruct (btb_probe_status p1 =? BPU_HIT); lia.
Qed.

(** C8. A call of [bpu_probe] at privilege level [priv] adds one to
    [stats[priv].btb_probes], and adds one to [stats[priv].btb_hits]
    exactly when the BTB lookup hit (counters below their maximum); so,
    counting from zeroed counters, after any sequence of probes at [priv]
    that fits the counter width, [btb_probes] is the number of calls and
    [btb_hits] is at most [btb_probes]. *)
Theorem bpu_probe_statistics :
  btb_probe_contract ->
  (forall u pc p priv s,
     stats_at u priv = Some s ->
     0 <= btb_probes s -> btb_probes s + 1 < 2 ^ stat_bits ->
     0 <= btb_hits s -> btb_hits s + 1 < 2 ^ stat_bits ->
     exists p1 u1 tr s1,
       bpu_probe pc p priv u = Ret p1 u1 tr /\
       btb_probe (btb u) pc (btb_entry p)
         = (btb u1, btb_probe_status p1, btb_entry p1) /\
       stats_at u1 priv = Some s1 /\
       btb_probes s1 = btb_probes s + 1 /\
       (btb_hits s1 = btb_hits s + 1 <-> btb_probe_status p1 = BPU_HIT) /\
       (btb_hits s1 = btb_hits s <-> btb_probe_status p1 <> BPU_HIT)) /\
  (forall pcs u p priv s,
     stats_at u priv = Some s ->
     btb_probes s = 0 -> btb_hits s = 0 ->
     Z.of_nat (length pcs) < 2 ^ stat_bits ->
     exists p1 u1 tr s1,
       bpu_probe_all pcs p priv u = Ret p1 u1 tr /\
       stats_at u1 priv = Some s1 /\
       btb_probes s1 = Z.of_nat (length pcs) /\
       0 <= btb_hits s1 <= btb_probes s1).
Proof.
  intros Hbtb. split.
  - intros u pc p priv s Hs Hp0 Hp1 Hh0 Hh1.
    destruct (bpu_probe_stats u pc p priv s Hbtb Hs)
      as (p1 & u1 & tr1 & Hrun & Hlook & Hs1).
    do 4 eexists. split; [exact Hrun|]. split; [exact Hlook|].
    split; [exact Hs1|].
    destruct (btb_probe_status p1 =? BPU_HIT) eqn:Hst; simpl;
      rewrite !incr_no_overflow by done; lia.
  - intros pcs u p priv s Hs Hp0 Hh0 Hlen.
    destruct (bpu_probe_all_counts priv pcs Hbtb u p s 0 0 Hs)
      as (p1 & u1 & tr & s1 & h1 & Hrun & Hs1 & Hk & Hh & Hle).
    { by rewrite Zmod_0_l. }
    { by rewrite Zmod_0_l. }
    exists p1, u1, tr, s1. split; [done|]. split; [done|].
    rewrite Hk, Hh. rewrite !Z.mod_small by lia. lia.
Qed.

(** [bpu_get_target] on an entry of each kind. *)

Lemma bpu_get_target_uncond_run u pc e ent :
  entry_at (btb u) e = Some ent -> type ent = BRANCH_UNCOND ->
  bpu_get_target pc e u = Ret (target ent) u [EvDeref e; EvDeref e].
Proof.
  intros He Hty. unfold_bpu. rewrite He. simpl.
  rewrite Hty, Z.eqb_refl. by rewrite He.
Qed.

Lemma bpu_get_target_bimodal_run u pc e ent :
  BRANCH_UNCOND <> BRANCH_COND -> ap u = None ->
  entry_at (btb u) e = Some ent -> type ent = BRANCH_COND ->
  bpu_get_target pc e u =
    if 1 <? pred ent
    then Ret (target ent) u [EvDeref e; EvDeref e; EvDeref e]
    else Ret 0 u [EvDeref e; EvDeref e].
Proof.
  intros Hne Hap He Hty. unfold_bpu. rewrite He. simpl.
  rewrite Hty, Z.eqb_refl.
  destruct (BRANCH_COND =? BRANCH_UNCOND) eqn:Heq; [lia|].
  rewrite Hap. simpl. rewrite He.
  destruct (1 <? pred ent); simpl; [by rewrite He | done].
Qed.

Lemma bpu_get_target_adaptive_run u pc e ent a :
  BRANCH_UNCOND <> BRANCH_COND -> ap u = Some a ->
  entry_at (btb u) e = Some ent -> type ent = BRANCH_COND ->
  let q := adaptive_predictor_get_prediction a pc in
  let u1 := mkBranchPredUnit (btb u) (Some q.1) (stats u) in
  bpu_get_target pc e u =
    if q.2 =? 0
    then Ret 0 u1 [EvDeref e; EvApGetPrediction pc]
    else Ret (target ent) u1 [EvDeref e; EvApGetPrediction pc; EvDeref e].
Proof.
  intros Hne Hap He Hty. unfold_bpu. rewrite He. simpl.
  rewrite Hty, Z.eqb_refl.
  destruct (BRANCH_COND =? BRANCH_UNCOND) eqn:Heq; [lia|].
  rewrite Hap. simpl. rewrite Hap.
  destruct (adaptive_predictor_get_prediction a pc) as [a1 r]. simpl.
  destruct (r =? 0); simpl; [done | by rewrite He].
Qed.

(** C3, as the code has it. For an entry of type [BRANCH_UNCOND],
    [bpu_get_target] returns the stored target, with or without an
    adaptive predictor and whatever the counter; no predictor is called
    and the unit is unchanged.  The value is the sentinel 0 exactly when
    the stored target is 0. *)
Theorem bpu_get_target_uncond u pc e ent :
  entry_at (btb u) e = Some ent -> type ent = BRANCH_UNCOND ->
  exists r tr,
    bpu_get_target pc e u = Ret r u tr /\
    r = target ent /\
    (r = 0 <-> target ent = 0) /\
    (forall ev, In ev tr -> is_ap_event ev = false).
Proof.
  intros He Hty. exists (target ent), [EvDeref e; EvDeref e].
  split; [by apply bpu_get_target_uncond_run|].
  split; [done|]. split; [tauto|].
  intros ev [<- | [<- | []]]; done.
Qed.

(** C4, as the code has it. Without an adaptive predictor, for an entry
    of type [BRANCH_COND] with counter [v] in [0,3]: [bpu_get_target]
    returns the stored target when [v] is 2 or 3 and 0 when [v] is 0 or
    1; when the stored target is not 0 both are equivalences. *)
Theorem bpu_get_target_bimodal u pc e ent :
  BRANCH_UNCOND <> BRANCH_COND -> ap u = None ->
  entry_at (btb u) e = Some ent -> type ent = BRANCH_COND ->
  0 <= pred ent <= 3 ->
  exists r tr,
    bpu_get_target pc e u = Ret r u tr /\
    (pred ent = 2 \/ pred ent = 3 -> r = target ent) /\
    (pred ent = 0 \/ pred ent = 1 -> r = 0) /\
    (target ent <> 0 ->
       (r = target ent <-> pred ent = 2 \/ pred ent = 3) /\
       (r = 0 <-> pred ent = 0 \/ pred ent = 1)).
Proof.
  intros Hne Hap He Hty Hv.
  rewrite (bpu_get_target_bimodal_run u pc e ent Hne Hap He Hty).
  destruct (1 <? pred ent) eqn:Hp; do 2 eexists; (split; [reflexivity|]); lia.
Qed.

(** C5. With an adaptive predictor, for an entry of type [BRANCH_COND]:
    [bpu_get_target] returns the stored target when
    [adaptive_predictor_get_prediction] answers taken and 0 when it
    answers not-taken; the counter of the entry is not read and plays no
    part in the result. *)
Theorem bpu_get_target_adaptive u pc e ent a :
  BRANCH_UNCOND <> BRANCH_COND -> ap u = Some a ->
  entry_at (btb u) e = Some ent -> type ent = BRANCH_COND ->
  exists r u1 tr,
    bpu_get_target pc e u = Ret r u1 tr /\
    ((adaptive_predictor_get_prediction a pc).2 = PRED_TAKEN -> r = target ent) /\
    ((adaptive_predictor_get_prediction a pc).2 = PRED_NOT_TAKEN -> r = 0) /\
    r = (if (adaptive_predictor_get_prediction a pc).2 =? PRED_NOT_TAKEN
         then 0 else target ent) /\
    In (EvApGetPrediction pc) tr.
Proof.
  intros Hne Hap He Hty.
  rewrite (bpu_get_target_adaptive_run u pc e ent a Hne Hap He Hty).
  unfold PRED_TAKEN, PRED_NOT_TAKEN.
  destruct ((adaptive_predictor_get_prediction a pc).2 =? 0) eqn:Hq;
    do 3 eexists; (split; [reflexivity|]); simpl;
    (split; [lia|]); (split; [lia|]); (split; [done|]); tauto.
Qed.

(** C9. An entry whose type is neither [BRANCH_UNCOND] nor [BRANCH_COND]
    takes [bpu_get_target] past the switch to [assert(0)]: the call stops
    there and returns no value. *)
Theorem bpu_get_target_bad_type u pc e ent :
  entry_at (btb u) e = Some ent ->
  type ent <> BRANCH_UNCOND -> type ent <> BRANCH_COND ->
  bpu_get_target pc e u = AssertFail /\
  (forall r u1 tr, bpu_get_target pc e u <> Ret r u1 tr).
Proof.
  intros He Hu Hc.
  assert (Hrun : bpu_get_target pc e u = AssertFail).
  { unfold_bpu. rewrite He. simpl.
    destruct (type ent =? BRANCH_UNCOND) eqn:H1; [lia|].
    destruct (type ent =? BRANCH_COND) eqn:H2; [lia|]. done. }
  split; [done|]. intros r u1 tr. by rewrite Hrun.
Qed.

(** [bpu_add] and [bpu_update], one part at a time: the BTB part depends
    on [btb_probe_status] only, the predictor part on the presence of the
    predictor, the branch type and [ap_probe_status]. *)

(** What the two increments of [bpu_add] and [bpu_update] do to a
    record of counters. *)
Lemma incr_btb_inserts_counts s :
  btb_inserts (incr_btb_inserts s) = (btb_inserts s + 1) mod 2 ^ stat_bits /\
  (0 <= btb_inserts s -> btb_inserts s + 1 < 2 ^ stat_bits ->
   btb_inserts (incr_btb_inserts s) = btb_inserts s + 1) /\
  btb_probes (incr_btb_inserts s) = btb_probes s /\
  btb_hits (incr_btb_inserts s) = btb_hits s /\
  btb_updates (incr_btb_inserts s) = btb_updates s.
Proof.
  simpl. split; [reflexivity|]. split; [|done].
  intros. by apply incr_no_overflow.
Qed.

Lemma incr_btb_updates_counts s :
  btb_updates (incr_btb_updates s) = (btb_updates s + 1) mod 2 ^ stat_bits /\
  (0 <= btb_updates s -> btb_updates s + 1 < 2 ^ stat_bits ->
   btb_updates (incr_btb_updates s) = btb_updates s + 1) /\
  btb_probes (incr_btb_updates s) = btb_probes s /\
  btb_hits (incr_btb_updates s) = btb_hits s /\
  btb_inserts (incr_btb_updates s) = btb_inserts s.
Proof.
  simpl. split; [reflexivity|]. split; [|done].
  intros. by apply incr_no_overflow.
Qed.

Lemma bpu_add_run u pc ty p priv s :
  stats_at u priv = Some s ->
  let miss := btb_probe_status p =? 0 in
  let ap_miss := (ty =? BRANCH_COND) && (ap_probe_status p =? 0) in
  bpu_add pc ty p priv u =
    Ret tt
      (mkBranchPredUnit
         (if miss then btb_add (btb u) pc ty else btb u)
         (if ap_miss then (fun a => adaptive_predictor_add a pc) <$> ap u else ap u)
         (if miss then <[Z.to_nat priv := incr_btb_inserts s]> (stats u) else stats u))
      ((if miss then [EvBtbAdd pc ty] else [])
         ++ (if ap_miss then if ap u is Some _ then [EvApAdd pc] else [] else [])).
Proof.
  intros Hs miss ap_miss. subst miss ap_miss.
  assert (Hs0 : forall b0 a0,
    stats_at (mkBranchPredUnit b0 a0 (stats u)) priv = Some s) by done.
  unfold_bpu. destruct u as [b a sts]. simpl in *.
  destruct (btb_probe_status p =? 0); simpl; rewrite ?Hs0; simpl;
    destruct a as [a|]; simpl; try done;
    destruct (ty =? BRANCH_COND); simpl; try done;
    destruct (ap_probe_status p =? 0); simpl; done.
Qed.

Lemma bpu_update_run u pc tgt taken ty p priv s :
  stats_at u priv = Some s ->
  let hit := negb (btb_probe_status p =? 0) in
  let ap_hit := (ty =? BRANCH_COND) && negb (ap_probe_status p =? 0) in
  bpu_update pc tgt taken ty p priv u =
    Ret tt
      (mkBranchPredUnit
         (if hit then btb_update (btb u) (btb_entry p) tgt taken ty else btb u)
         (if ap_hit then (fun a => adaptive_predictor_update a pc taken) <$> ap u
          else ap u)
         (if hit then <[Z.to_nat priv := incr_btb_updates s]> (stats u) else stats u))
      ((if hit then [EvBtbUpdate (btb_entry p) tgt taken ty] else [])
         ++ (if ap_hit then if ap u is Some _ then [EvApUpdate pc taken] else []
             else [])).
Proof.
  intros Hs hit ap_hit. subst hit ap_hit.
  assert (Hs0 : forall b0 a0,
    stats_at (mkBranchPredUnit b0 a0 (stats u)) priv = Some s) by done.
  unfold_bpu. destruct u as [b a sts]. simpl in *.
  destruct (btb_probe_status p =? 0); simpl; rewrite ?Hs0; simpl;
    destruct a as [a|]; simpl; try done;
    destruct (ty =? BRANCH_COND); simpl; try done;
    destruct (ap_probe_status p =? 0); simpl; done.
Qed.

(** C6. [bpu_add] calls [btb_add] and increments
    [stats[priv].btb_inserts] (by one, modulo the counter width, the other
    counters as they were) exactly when the packet's [btb_probe_status]
    is MISS, and leaves the BTB and the statistics alone on HIT; it calls
    [adaptive_predictor_add] exactly when the unit has an adaptive
    predictor, the type is [BRANCH_COND] and [ap_probe_status] is MISS, and
    leaves the predictor alone otherwise, so always for [BRANCH_UNCOND]. *)
Theorem bpu_add_allocation u pc ty p priv :
  BRANCH_UNCOND <> BRANCH_COND -> response_ok p -> valid_priv u priv ->
  exists u1 tr s,
    bpu_add pc ty p priv u = Ret tt u1 tr /\
    stats_at u priv = Some s /\
    (In (EvBtbAdd pc ty) tr <-> btb_probe_status p = BPU_MISS) /\
    (btb_probe_status p = BPU_MISS ->
       btb u1 = btb_add (btb u) pc ty /\
       exists s1,
         stats_at u1 priv = Some s1 /\
         btb_inserts s1 = (btb_inserts s + 1) mod 2 ^ stat_bits /\
         (0 <= btb_inserts s -> btb_inserts s + 1 < 2 ^ stat_bits ->
          btb_inserts s1 = btb_inserts s + 1) /\
         btb_probes s1 = btb_probes s /\
         btb_hits s1 = btb_hits s /\
         btb_updates s1 = btb_updates s) /\
    (btb_probe_status p = BPU_HIT ->
       btb u1 = btb u /\ stats u1 = stats u /\
       forall ev, In ev tr -> is_btb_event ev = false) /\
    (In (EvApAdd pc) tr <->
       is_Some (ap u) /\ ty = BRANCH_COND /\ ap_probe_status p = BPU_MISS) /\
    (In (EvApAdd pc) tr ->
       exists a, ap u = Some a /\ ap u1 = Some (adaptive_predictor_add a pc)) /\
    (~ In (EvApAdd pc) tr -> ap u1 = ap u) /\
    (ty = BRANCH_UNCOND ->
       ap u1 = ap u /\ forall ev, In ev tr -> is_ap_event ev = false).
Proof.
  intros Hne [Hb Ha] [s Hs].
  rewrite (bpu_add_run u pc ty p priv s Hs).
  do 3 eexists. split; [reflexivity|]. split; [exact Hs|].
  assert (Hins : forall a0, stats_at
    (mkBranchPredUnit (btb_add (btb u) pc ty) a0
       (<[Z.to_nat priv := incr_btb_inserts s]> (stats u))) priv
    = Some (incr_btb_inserts s)) by (intros; by eapply stats_at_insert).
  pose proof (incr_btb_inserts_counts s) as Hcnt.
  unfold status_ok, BPU_HIT, BPU_MISS in *.
  destruct (Z.eqb_spec ty BRANCH_COND) as [Hty | Hty];
    destruct Hb as [-> | ->]; destruct Ha as [-> | ->];
    destruct (ap u) as [a|]; simpl.
  all: repeat match goal with |- _ /\ _ => split end.
  all: try (intros _; split; [done|];
            exists (incr_btb_inserts s); split; [apply Hins | exact Hcnt]).
  all: naive_solver.
Qed.

(** C7. [bpu_update] calls [btb_update] on the packet's entry, with the
    resolved target and taken bit, and increments
    [stats[priv].btb_updates] (by one, modulo the counter width, the other
    counters as they were) exactly when the packet's [btb_probe_status]
    is HIT, and leaves the BTB and the statistics alone on MISS; it calls
    [adaptive_predictor_update] with the taken bit exactly when the unit
    has an adaptive predictor, the type is [BRANCH_COND] and
    [ap_probe_status] is HIT, and leaves the predictor alone otherwise. *)
Theorem bpu_update_refresh u pc tgt taken ty p priv :
  response_ok p -> valid_priv u priv ->
  exists u1 tr s,
    bpu_update pc tgt taken ty p priv u = Ret tt u1 tr /\
    stats_at u priv = Some s /\
    (In (EvBtbUpdate (btb_entry p) tgt taken ty) tr <->
       btb_probe_status p = BPU_HIT) /\
    (btb_probe_status p = BPU_HIT ->
       btb u1 = btb_update (btb u) (btb_entry p) tgt taken ty /\
       exists s1,
         stats_at u1 priv = Some s1 /\
         btb_updates s1 = (btb_updates s + 1) mod 2 ^ stat_bits /\
         (0 <= btb_updates s -> btb_updates s + 1 < 2 ^ stat_bits ->
          btb_updates s1 = btb_updates s + 1) /\
         btb_probes s1 = btb_probes s /\
         btb_hits s1 = btb_hits s /\
         btb_inserts s1 = btb_inserts s) /\
    (btb_probe_status p = BPU_MISS ->
       btb u1 = btb u /\ stats u1 = stats u /\
       forall ev, In ev tr -> is_btb_event ev = false) /\
    (In (EvApUpdate pc taken) tr <->
       is_Some (ap u) /\ ty = BRANCH_COND /\ ap_probe_status p = BPU_HIT) /\
    (In (EvApUpdate pc taken) tr ->
       exists a, ap u = Some a /\
                 ap u1 = Some (adaptive_predictor_update a pc taken)) /\
    (~ In (EvApUpdate pc taken) tr -> ap u1 = ap u).
Proof.
  intros [Hb Ha] [s Hs].
  rewrite (bpu_update_run u pc tgt taken ty p priv s Hs).
  do 3 eexists. split; [reflexivity|]. split; [exact Hs|].
  assert (Hupd : forall a0, stats_at
    (mkBranchPredUnit (btb_update (btb u) (btb_entry p) tgt taken ty) a0
       (<[Z.to_nat priv := incr_btb_updates s]> (stats u))) priv
    = Some (incr_btb_updates s)) by (intros; by eapply stats_at_insert).
  pose proof (incr_btb_updates_counts s) as Hcnt.
  unfold status_ok, BPU_HIT, BPU_MISS in *.
  destruct (Z.eqb_spec ty BRANCH_COND) as [Hty | Hty];
    destruct Hb as [-> | ->]; destruct Ha as [-> | ->];
    destruct (ap u) as [a|]; simpl.
  all: repeat match goal with |- _ /\ _ => split end.
  all: try (intros _; split; [done|];
            exists (incr_btb_updates s); split; [apply Hupd | exact Hcnt]).
  all: naive_solver.
Qed.

End Properties.

(** * The theorems at work on the one-slot instance *)

Lemma toy_btb_probe_contract : @btb_probe_contract toy.
Proof.
  intros b pc old b1 st e Hq. simpl in Hq. unfold toy_btb_probe in Hq.
  destruct b as [[tag ent]|]; [destruct (tag =? pc)|]; inversion Hq; subst.
  - split; [by left|]. intros _. by exists ent.
  - split; [by right|]. discriminate.
  - split; [by right|]. discriminate.
Qed.

Lemma toy_ap_probe_contract : @ap_probe_contract toy.
Proof.
  intros a pc. simpl. unfold toy_ap_probe.
  destruct a as [[tag c]|]; simpl; [destruct (tag =? pc)|]; (by left) || (by right).
Qed.

Lemma toy_tags_distinct : @BRANCH_UNCOND toy <> @BRANCH_COND toy.
Proof. discriminate. Qed.

Lemma toy_valid_priv tag ent a : valid_priv (toy_unit tag ent a) 0.
Proof. by eexists. Qed.

(** Scenario A of the specification on the toy unit, bimodal mode: a
    probe of 4096 misses, [bpu_add] allocates, the next probe hits, a taken
    resolution to 8192 moves the counter from 1 to 2, and [bpu_get_target]
    then predicts 8192. *)
Example scenario_bimodal :
  exists p1 u1 t1 u2 t2 p3 u3 t3 u4 t4 u5 t5,
    bpu_probe 4096 empty_pkt 3 (toy_empty_unit None) = Ret p1 u1 t1 /\
    bpu_probe_status p1 = BPU_MISS /\
    bpu_add 4096 (@BRANCH_COND toy) p1 3 u1 = Ret tt u2 t2 /\
    bpu_probe 4096 p1 3 u2 = Ret p3 u3 t3 /\
    bpu_probe_status p3 = BPU_HIT /\
    bpu_update 4096 8192 1 (@BRANCH_COND toy) p3 3 u3 = Ret tt u4 t4 /\
    bpu_get_target 4096 (btb_entry p3) u4 = Ret 8192 u5 t5 /\
    stats_at u5 3 = Some (mkSimStats 2 1 1 1).
Proof. repeat eexists. Qed.

(** Scenario C: an unconditional branch at 16384 with target 20480 is
    predicted whatever the adaptive predictor holds. *)
Example scenario_unconditional :
  exists u1 t1 u2 t2,
    bpu_get_target 16384 toy_slot (toy_unit 16384 uncond_entry (Some None))
      = Ret 20480 u1 t1 /\
    bpu_get_target 16384 toy_slot (toy_unit 16384 uncond_entry (Some (Some (16384, 0))))
      = Ret 20480 u2 t2.
Proof. repeat eexists. Qed.

(** A conditional branch at 4096 that the BTB holds: the predictor, which
    does not know the address, is asked and answers MISS. *)
Lemma bpu_probe_ap_requery_witness :
  @btb_probe_contract toy /\
  valid_priv (toy_unit 4096 cond_entry (Some None)) 0 /\
  exists p1 u1 tr,
    bpu_probe 4096 empty_pkt 0 (toy_unit 4096 cond_entry (Some None))
      = Ret p1 u1 tr /\
    In (EvApProbe 4096) tr /\ ap_probe_status p1 = BPU_MISS.
Proof.
  split; [exact toy_btb_probe_contract|]. split; [apply toy_valid_priv|].
  destruct (bpu_probe_ap_requery
              (toy_unit 4096 cond_entry (Some None)) 4096 empty_pkt 0
              toy_btb_probe_contract (toy_valid_priv _ _ _))
    as (p1 & u1 & tr & Hrun & Hlook & Hiff & Hval & _).
  exists p1, u1, tr. split; [exact Hrun|].
  injection Hlook as Hb Hst He.
  assert (Hin : In (EvApProbe 4096) tr).
  { apply Hiff. split; [by eexists|]. right. split; [by rewrite <- Hst|].
    exists cond_entry. by rewrite <- Hb, <- He. }
  split; [exact Hin|].
  destruct (Hval Hin) as (a & Ha & ->). by injection Ha as <-.
Defined.

(** The same probe with a predictor that knows the address: both statuses
    settle the combined one. *)
Lemma bpu_probe_status_is_conjunction_witness :
  @btb_probe_contract toy /\ @ap_probe_contract toy /\
  valid_priv (toy_unit 4096 cond_entry (Some (Some (4096, 3)))) 0 /\
  exists p1 u1 tr,
    bpu_probe 4096 empty_pkt 0 (toy_unit 4096 cond_entry (Some (Some (4096, 3))))
      = Ret p1 u1 tr /\
    (bpu_probe_status p1 = BPU_HIT <->
     btb_probe_status p1 = BPU_HIT /\ ap_probe_status p1 = BPU_HIT).
Proof.
  split; [exact toy_btb_probe_contract|].
  split; [exact toy_ap_probe_contract|].
  split; [apply toy_valid_priv|].
  apply bpu_probe_status_is_conjunction.
  - exact toy_btb_probe_contract.
  - exact toy_ap_probe_contract.
  - apply toy_valid_priv.
Defined.

(** C3 as stated fails where the stored target is 0: the value returned
    for an unconditional entry is then the sentinel. *)
Lemma bpu_get_target_uncond_sentinel :
  @entry_at toy (btb (toy_unit 16384 uncond_entry_target0 None)) toy_slot
    = Some uncond_entry_target0 /\
  type uncond_entry_target0 = @BRANCH_UNCOND toy /\
  bpu_get_target 16384 toy_slot (toy_unit 16384 uncond_entry_target0 None)
    = Ret 0 (toy_unit 16384 uncond_entry_target0 None)
        [EvDeref toy_slot; EvDeref toy_slot].
Proof. repeat split. Qed.

Lemma bpu_get_target_uncond_witness :
  @entry_at toy (btb (toy_unit 16384 uncond_entry (Some (Some (16384, 0))))) toy_slot
    = Some uncond_entry /\
  type uncond_entry = @BRANCH_UNCOND toy /\
  exists r tr,
    bpu_get_target 16384 toy_slot (toy_unit 16384 uncond_entry (Some (Some (16384, 0))))
      = Ret r (toy_unit 16384 uncond_entry (Some (Some (16384, 0)))) tr /\
    r = target uncond_entry /\
    (r = 0 <-> target uncond_entry = 0) /\
    (forall ev, In ev tr -> is_ap_event ev = false).
Proof.
  split; [reflexivity|]. split; [reflexivity|].
  apply (bpu_get_target_uncond
           (toy_unit 16384 uncond_entry (Some (Some (16384, 0))))
           16384 toy_slot uncond_entry); reflexivity.
Defined.

(** C4 as stated fails where the stored target is 0: with counter 3 the
    value returned is the sentinel 0, and with counter 0 it is the stored
    target. *)
Lemma bpu_get_target_bimodal_sentinel :
  (type cond_entry_target0_strong = @BRANCH_COND toy /\
   pred cond_entry_target0_strong = 3 /\
   bpu_get_target 4096 toy_slot (toy_unit 4096 cond_entry_target0_strong None)
     = Ret 0 (toy_unit 4096 cond_entry_target0_strong None)
         [EvDeref toy_slot; EvDeref toy_slot; EvDeref toy_slot]) /\
  (type cond_entry_target0_weak = @BRANCH_COND toy /\
   pred cond_entry_target0_weak = 0 /\
   bpu_get_target 4096 toy_slot (toy_unit 4096 cond_entry_target0_weak None)
     = Ret (target cond_entry_target0_weak)
         (toy_unit 4096 cond_entry_target0_weak None)
         [EvDeref toy_slot; EvDeref toy_slot]).
Proof. repeat split. Qed.

Lemma bpu_get_target_bimodal_witness :
  @BRANCH_UNCOND toy <> @BRANCH_COND toy /\
  ap (toy_unit 4096 cond_entry None) = None /\
  @entry_at toy (btb (toy_unit 4096 cond_entry None)) toy_slot = Some cond_entry /\
  type cond_entry = @BRANCH_COND toy /\
  0 <= pred cond_entry <= 3 /\
  exists r tr,
    bpu_get_target 4096 toy_slot (toy_unit 4096 cond_entry None)
      = Ret r (toy_unit 4096 cond_entry None) tr /\
    (pred cond_entry = 2 \/ pred cond_entry = 3 -> r = target cond_entry) /\
    (pred cond_entry = 0 \/ pred cond_entry = 1 -> r = 0) /\
    (target cond_entry <> 0 ->
       (r = target cond_entry <-> pred cond_entry = 2 \/ pred cond_entry = 3) /\
       (r = 0 <-> pred cond_entry = 0 \/ pred cond_entry = 1)).
Proof.
  split; [exact toy_tags_distinct|]. split; [reflexivity|].
  split; [reflexivity|]. split; [reflexivity|].
  split; [simpl; lia|].
  apply (bpu_get_target_bimodal (toy_unit 4096 cond_entry None) 4096 toy_slot cond_entry);
    [exact toy_tags_distinct | reflexivity | reflexivity | reflexivity | simpl; lia].
Defined.

(** A predictor that says taken for 4096 against a counter that says
    not-taken: the predictor decides. *)
Lemma bpu_get_target_adaptive_witness :
  @BRANCH_UNCOND toy <> @BRANCH_COND toy /\
  ap (toy_unit 4096 cond_entry_weak (Some (Some (4096, 3)))) = Some (Some (4096, 3)) /\
  @entry_at toy (btb (toy_unit 4096 cond_entry_weak (Some (Some (4096, 3))))) toy_slot
    = Some cond_entry_weak /\
  type cond_entry_weak = @BRANCH_COND toy /\
  exists r u1 tr,
    bpu_get_target 4096 toy_slot (toy_unit 4096 cond_entry_weak (Some (Some (4096, 3))))
      = Ret r u1 tr /\
    r = 8192.
Proof.
  split; [exact toy_tags_distinct|]. split; [reflexivity|].
  split; [reflexivity|]. split; [reflexivity|].
  destruct (bpu_get_target_adaptive
              (toy_unit 4096 cond_entry_weak (Some (Some (4096, 3))))
              4096 toy_slot cond_entry_weak (Some (4096, 3))
              toy_tags_distinct eq_refl eq_refl eq_refl)
    as (r & u1 & tr & Hrun & Htaken & _).
  exists r, u1, tr. split; [exact Hrun|]. by apply Htaken.
Defined.

Lemma bpu_get_target_bad_type_witness :
  @entry_at toy (btb (toy_unit 4096 bad_entry None)) toy_slot = Some bad_entry /\
  type bad_entry <> @BRANCH_UNCOND toy /\
  type bad_entry <> @BRANCH_COND toy /\
  bpu_get_target 4096 toy_slot (toy_unit 4096 bad_entry None) = AssertFail.
Proof.
  split; [reflexivity|]. split; [discriminate|]. split; [discriminate|].
  apply (bpu_get_target_bad_type (toy_unit 4096 bad_entry None) 4096 toy_slot bad_entry);
    [reflexivity | discriminate | discriminate].
Defined.

(** A first sighting of a conditional branch, after a probe that missed
    in both structures: one entry in each. *)
Lemma bpu_add_allocation_witness :
  @BRANCH_UNCOND toy <> @BRANCH_COND toy /\
  response_ok empty_pkt /\
  valid_priv (toy_empty_unit (Some None)) 0 /\
  exists u1 tr s1,
    bpu_add 4096 (@BRANCH_COND toy) empty_pkt 0 (toy_empty_unit (Some None))
      = Ret tt u1 tr /\
    btb u1 = Some (4096, mkBtbEntry 0 1 1) /\
    stats_at u1 0 = Some s1 /\
    btb_inserts s1 = 1 /\
    btb_probes s1 = 0 /\ btb_hits s1 = 0 /\ btb_updates s1 = 0 /\
    ap u1 = Some (Some (4096, 1)).
Proof.
  assert (Hok : response_ok empty_pkt) by (split; by right).
  assert (Hpriv : valid_priv (toy_empty_unit (Some None)) 0) by (by eexists).
  split; [exact toy_tags_distinct|]. split; [exact Hok|]. split; [exact Hpriv|].
  destruct (bpu_add_allocation (toy_empty_unit (Some None)) 4096 (@BRANCH_COND toy)
              empty_pkt 0 toy_tags_distinct Hok Hpriv)
    as (u1 & tr & s & Hrun & Hs & Hbtb & Hmiss & _ & Hap & Hadd & _).
  injection Hs as <-.
  destruct (Hmiss eq_refl) as (Hb & s1 & Hs1 & _ & Hone & Hp & Hh & Hu).
  exists u1, tr, s1. split; [exact Hrun|]. split; [exact Hb|].
  split; [exact Hs1|].
  split; [apply Hone; simpl; lia|].
  split; [exact Hp|]. split; [exact Hh|]. split; [exact Hu|].
  destruct Hadd as (a & Ha & ->).
  - apply Hap. split; [by eexists|]. by split.
  - by injection Ha as <-.
Defined.

(** A resolved taken conditional branch after a probe that hit in both
    structures: the entry gets its target and both counters move up. *)
Lemma bpu_update_refresh_witness :
  response_ok hit_pkt /\
  valid_priv (toy_unit 4096 cond_entry_weak (Some (Some (4096, 1)))) 0 /\
  exists u1 tr s1,
    bpu_update 4096 12288 1 (@BRANCH_COND toy) hit_pkt 0
      (toy_unit 4096 cond_entry_weak (Some (Some (4096, 1))))
      = Ret tt u1 tr /\
    btb u1 = Some (4096, mkBtbEntry 12288 1 1) /\
    stats_at u1 0 = Some s1 /\
    btb_updates s1 = 1 /\
    btb_probes s1 = 0 /\ btb_hits s1 = 0 /\ btb_inserts s1 = 0 /\
    ap u1 = Some (Some (4096, 2)).
Proof.
  assert (Hok : response_ok hit_pkt) by (split; by left).
  split; [exact Hok|]. split; [apply toy_valid_priv|].
  destruct (bpu_update_refresh
              (toy_unit 4096 cond_entry_weak (Some (Some (4096, 1))))
              4096 12288 1 (@BRANCH_COND toy) hit_pkt 0 Hok (toy_valid_priv _ _ _))
    as (u1 & tr & s & Hrun & Hs & Hbtb & Hhit & _ & Hap & Hupd & _).
  injection Hs as <-.
  destruct (Hhit eq_refl) as (Hb & s1 & Hs1 & _ & Hone & Hp & Hh & Hi).
  exists u1, tr, s1. split; [exact Hrun|]. split; [exact Hb|].
  split; [exact Hs1|].
  split; [apply Hone; simpl; lia|].
  split; [exact Hp|]. split; [exact Hh|]. split; [exact Hi|].
  destruct Hupd as (a & Ha & ->).
  - apply Hap. split; [by eexists|]. by split.
  - by injection Ha as <-.
Defined.

(** Three probes at privilege level 0, the second and third of which hit
    nothing: three probes counted; and one probe that hits. *)
Lemma bpu_probe_statistics_witness :
  @btb_probe_contract toy /\
  (exists p1 u1 tr s1,
     bpu_probe 4096 empty_pkt 0 (toy_unit 4096 cond_entry None) = Ret p1 u1 tr /\
     stats_at u1 0 = Some s1 /\
     btb_probes s1 = 1 /\ btb_hits s1 = 1) /\
  (exists p1 u1 tr s1,
     bpu_probe_all [4096; 4100; 4104] empty_pkt 0 (toy_unit 4096 cond_entry None)
       = Ret p1 u1 tr /\
     stats_at u1 0 = Some s1 /\
     btb_probes s1 = 3 /\ 0 <= btb_hits s1 <= btb_probes s1).
Proof.
  split; [exact toy_btb_probe_contract|].
  destruct (bpu_probe_statistics toy_btb_probe_contract) as [Hone Hall].
  split.
  - destruct (Hone (toy_unit 4096 cond_entry None) 4096 empty_pkt 0 zero_stats)
      as (p1 & u1 & tr & s1 & Hrun & Hlook & Hs1 & Hp & Hh & _);
      [reflexivity | simpl; lia | simpl; lia | simpl; lia | simpl; lia |].
    exists p1, u1, tr, s1. split; [exact Hrun|]. split; [exact Hs1|].
    split; [exact Hp|]. apply Hh. by injection Hlook as _ <- _.
  - destruct (Hall [4096; 4100; 4104] (toy_unit 4096 cond_entry None) empty_pkt 0
                zero_stats)
      as (p1 & u1 & tr & s1 & Hrun & Hs1 & Hp & Hh);
      [reflexivity | reflexivity | reflexivity | simpl; lia |].
    exists p1, u1, tr, s1.
    split; [exact Hrun|]. split; [exact Hs1|]. split; [exact Hp|]. exact Hh.
Defined.

(** A probe of an address the BTB does not hold, with a predictor
    present: the lookup leaves a pointer that holds no entry, and the
    probe returns without following it. *)
Lemma bpu_probe_deref_only_on_hit_witness :
  @btb_probe_contract toy /\
  valid_priv (toy_empty_unit (Some None)) 0 /\
  exists p1 u1 tr,
    bpu_probe 4096 empty_pkt 0 (toy_empty_unit (Some None)) = Ret p1 u1 tr /\
    btb_probe_status p1 = BPU_MISS /\
    @entry_at toy (btb u1) (btb_entry p1) = None /\
    (forall e, ~ In (EvDeref e) tr).
Proof.
  assert (Hpriv : valid_priv (toy_empty_unit (Some None)) 0) by (by eexists).
  split; [exact toy_btb_probe_contract|]. split; [exact Hpriv|].
  destruct (bpu_probe_deref_only_on_hit (toy_empty_unit (Some None)) 4096 empty_pkt 0
              toy_btb_probe_contract Hpriv)
    as (p1 & u1 & tr & Hrun & Hlook & _ & Hmiss).
  exists p1, u1, tr. split; [exact Hrun|].
  injection Hlook as Hb Hst He.
  split; [by rewrite <- Hst|]. split; [by rewrite <- Hb, <- He|].
  apply Hmiss. by rewrite <- Hst.
Defined.

(** * Beyond the claims: lifecycle, frames and compositions *)

Section Coverage.

#[local] Set Warnings "-clear-no-such-hyp".

Context `{!Collaborators}.

Implicit Types (u : BranchPredUnit) (p : BPUResponsePkt) (pc priv : Z).

Ltac unfold_ops :=
  unfold run_op, bpu_probe, bpu_get_target, bpu_add, bpu_update, bpu_flush,
    probe_guard, return_target, when, bind, ret, ap_present, deref,
    stat_incr, assert_fail, call_btb_flush, call_btb_probe, call_btb_add,
    call_btb_update, call_ap_flush, call_ap_probe, call_ap_get_prediction,
    call_ap_add, call_ap_update in *.

Lemma bind_Ret_inv {A B} (m : M A) (k : A -> M B) u b u2 tr :
  bind m k u = Ret b u2 tr ->
  exists a u1 t1 t2,
    m u = Ret a u1 t1 /\ k a u1 = Ret b u2 t2 /\ tr = t1 ++ t2.
Proof.
  unfold bind. intros Hrun.
  destruct (m u) as [a u1 t1| |]; [|done|done].
  destruct (k a u1) as [b' u2' t2| |] eqn:Hk; [|done|done].
  injection Hrun as -> -> <-. by exists a, u1, t1, t2.
Qed.

(** *** Relations kept by every call that returns *)

Lemma keeps_ret {A} R (a : A) : frame_rel R -> keeps R (ret a).
Proof. intros [Hrefl _] u a' u1 tr [= _ <- <-]. apply Hrefl. Qed.

Lemma keeps_bind {A B} R (m : M A) (k : A -> M B) :
  frame_rel R -> keeps R m -> (forall a, keeps R (k a)) -> keeps R (bind m k).
Proof.
  intros [_ Htrans] Hm Hk u b u2 tr Hrun.
  apply bind_Ret_inv in Hrun as (a & u1 & t1 & t2 & H1 & H2 & ->).
  eapply Htrans; [by eapply Hm | by eapply Hk].
Qed.

Lemma keeps_when R c (m : M unit) :
  frame_rel R -> keeps R m -> keeps R (when c m).
Proof. intros HR Hm. destruct c; simpl; [done | by apply keeps_ret]. Qed.

Lemma keeps_assert_fail {A} R : keeps R (@assert_fail _ A).
Proof. by intros u a u1 tr. Qed.

(** Takes a call apart into the steps of the monad. *)
Ltac keeps_step HR :=
  lazymatch goal with
  | |- keeps _ (bind _ _) => apply (keeps_bind _ _ _ HR); [|intros ?]
  | |- keeps _ (ret _) => apply (keeps_ret _ _ HR)
  | |- keeps _ (when _ _) => apply (keeps_when _ _ _ HR)
  | |- keeps _ assert_fail => apply keeps_assert_fail
  | |- keeps _ (if ?c then _ else _) => destruct c
  end.

(** Opens one primitive step that returned. *)
Ltac open_prim :=
  let u := fresh "u" in
  let Hrun := fresh "Hrun" in
  intros u ? ? ? Hrun;
  unfold ap_present, deref, stat_incr, call_btb_flush, call_btb_probe,
    call_btb_add, call_btb_update, call_ap_flush, call_ap_probe,
    call_ap_get_prediction, call_ap_add, call_ap_update in Hrun;
  destruct u as [? [?|] ?]; simpl in Hrun;
  repeat case_match; simplify_eq/=.








(** *** Statistics *)

Lemma stats_at_insert_ne u priv q s0 b a f :
  stats_at u priv = Some s0 -> q <> priv ->
  stats_at (mkBranchPredUnit b a (<[Z.to_nat priv := f]> (stats u))) q
    = stats_at u q.
Proof.
  unfold stats_at; simpl. intros Hs Hne.
  destruct (Z.ltb_spec priv 0); [done|].
  destruct (Z.ltb_spec q 0); [done|].
  apply list_lookup_insert_ne. lia.
Qed.

Lemma same_stats_frame :
  frame_rel (fun u u1 (_ : list Event) => stats u1 = stats u /\ btb u1 = btb u).
Proof.
  split; [done|]. intros u u1 u2 _ _ [H1 H1'] [H2 H2'].
  split; congruence.
Qed.

Ltac same_stats_prim := open_prim; by split.

(** [bpu_get_target] changes neither the BTB nor the statistics. *)
Lemma bpu_get_target_same_stats pc e :
  keeps (fun u u1 _ => stats u1 = stats u /\ btb u1 = btb u) (bpu_get_target pc e).
Proof.
  pose proof same_stats_frame as HR.
  unfold bpu_get_target, return_target.
  repeat keeps_step HR. all: same_stats_prim.
Qed.

(** The part of [bpu_probe] after the two increments. *)
Lemma probe_tail_same_stats pc p :
  keeps (fun u u1 _ => stats u1 = stats u /\ btb u1 = btb u)
    (bind (probe_guard p) (fun g =>
     bind (if g : bool
           then bind (call_ap_probe pc) (fun r => ret (set_ap_probe_status r p))
           else ret p) (fun p0 =>
     ret (set_bpu_probe_status
            (c_and (btb_probe_status p0) (ap_probe_status p0)) p0)))).
Proof.
  pose proof same_stats_frame as HR.
  unfold probe_guard. repeat keeps_step HR. all: same_stats_prim.
Qed.

(** What a probe that returns has done to the BTB and the statistics,
    whatever the collaborators answer. *)
Lemma bpu_probe_inv u pc p priv p1 u1 tr :
  bpu_probe pc p priv u = Ret p1 u1 tr ->
  exists s,
    stats_at u priv = Some s /\
    btb u1 = (btb_probe (btb u) pc (btb_entry p)).1.1 /\
    stats u1 =
      <[Z.to_nat priv :=
          incr_btb_probes
            (if (btb_probe (btb u) pc (btb_entry p)).1.2 =? BPU_HIT
             then incr_btb_hits s else s)]> (stats u).
Proof.
  unfold bpu_probe. cbv zeta. intros Hrun.
  apply bind_Ret_inv in Hrun as (r & ua & t1 & t2 & H1 & Hrun & ->).
  unfold call_btb_probe in H1. simpl in H1.
  destruct (btb_probe (btb u) pc (btb_entry p)) as [[b st] e] eqn:Hp.
  injection H1 as <- <- <-. simpl in Hrun.
  apply bind_Ret_inv in Hrun as ([] & ub & t3 & t4 & H2 & Hrun & ->).
  apply bind_Ret_inv in Hrun as ([] & uc & t5 & t6 & H3 & Hrun & ->).
  apply probe_tail_same_stats in Hrun as [Hst Hbtb].
  unfold when, ret, stat_incr in H2, H3. simpl.
  destruct (st =? BPU_HIT).
  - destruct (stats_at _ priv) as [s|] eqn:Hs in H2; [|done].
    injection H2 as <- <-. exists s. split; [done|].
    erewrite stats_at_insert in H3 by exact Hs.
    injection H3 as <- <-. rewrite Hst, Hbtb. simpl.
    split; [done|]. by rewrite list_insert_insert_eq.
  - injection H2 as <- <-.
    destruct (stats_at _ priv) as [s|] eqn:Hs in H3; [|done].
    injection H3 as <- <-. exists s. rewrite Hst, Hbtb. by simpl.
Qed.

Lemma bpu_add_inv u pc ty p priv u1 tr :
  bpu_add pc ty p priv u = Ret tt u1 tr ->
  (btb_probe_status p <> 0 /\ stats u1 = stats u /\ btb u1 = btb u) \/
  (btb_probe_status p = 0 /\ btb u1 = btb_add (btb u) pc ty /\
   exists s, stats_at u priv = Some s /\
             stats u1 = <[Z.to_nat priv := incr_btb_inserts s]> (stats u)).
Proof.
  intros Hrun. destruct u as [b a sts]. unfold_ops. simpl in *.
  destruct (Z.eqb_spec (btb_probe_status p) 0) as [H0 | H0]; simpl in *.
  - right. split; [done|].
    destruct (stats_at _ priv) as [s|] eqn:Hs in Hrun; [|done]. simpl in *.
    repeat case_match; simplify_eq/=; eauto.
  - left. split; [done|]. repeat case_match; simplify_eq/=; eauto.
Qed.

Lemma bpu_update_inv u pc tgt taken ty p priv u1 tr :
  bpu_update pc tgt taken ty p priv u = Ret tt u1 tr ->
  (btb_probe_status p = 0 /\ stats u1 = stats u /\ btb u1 = btb u) \/
  (btb_probe_status p <> 0 /\
   btb u1 = btb_update (btb u) (btb_entry p) tgt taken ty /\
   exists s, stats_at u priv = Some s /\
             stats u1 = <[Z.to_nat priv := incr_btb_updates s]> (stats u)).
Proof.
  intros Hrun. destruct u as [b a sts]. unfold_ops. simpl in *.
  destruct (Z.eqb_spec (btb_probe_status p) 0) as [H0 | H0]; simpl in *.
  - left. split; [done|]. repeat case_match; simplify_eq/=; eauto.
  - right. split; [done|].
    destruct (stats_at _ priv) as [s|] eqn:Hs in Hrun; [|done]. simpl in *.
    repeat case_match; simplify_eq/=; eauto.
Qed.

Lemma bpu_flush_same_stats :
  keeps (fun u u1 _ => stats u1 = stats u) bpu_flush.
Proof.
  intros u [] u1 tr Hrun. destruct u as [b [a|] sts]; unfold_ops; simpl in *;
    by simplify_eq/=.
Qed.

Lemma stats_at_unit u u1 q : stats u1 = stats u -> stats_at u1 q = stats_at u q.
Proof. unfold stats_at. by intros ->. Qed.

Lemma stats_at_unit_insert u u1 priv q s0 f :
  stats_at u priv = Some s0 ->
  stats u1 = <[Z.to_nat priv := f]> (stats u) ->
  stats_at u1 q = if decide (q = priv) then Some f else stats_at u q.
Proof.
  intros Hs Hu1. destruct u1 as [b1 a1 sts1]. simpl in Hu1. subst sts1.
  case_decide as Hq.
  - subst q. by eapply stats_at_insert.
  - by eapply stats_at_insert_ne.
Qed.

(** One call, seen from the counters of level [q]. *)
Lemma run_op_counts o u u1 tr q s :
  run_op o u = Ret tt u1 tr -> stats_at u q = Some s ->
  exists s1,
    stats_at u1 q = Some s1 /\
    btb_probes s1 = (if is_probe_at q o then incr (btb_probes s) else btb_probes s) /\
    (btb_hits s1 = btb_hits s \/
     (is_probe_at q o = true /\ btb_hits s1 = incr (btb_hits s))) /\
    (btb_inserts s1 = btb_inserts s \/
     (is_add_at q o = true /\ btb_inserts s1 = incr (btb_inserts s))) /\
    (btb_updates s1 = btb_updates s \/
     (is_update_at q o = true /\ btb_updates s1 = incr (btb_updates s))).
Proof.
  intros Hrun Hs. destruct o as [|pc p priv|pc e|pc ty p priv|pc tgt taken ty p priv];
    simpl in *.
  - apply bpu_flush_same_stats in Hrun.
    exists s. rewrite (stats_at_unit u u1 q Hrun). naive_solver.
  - apply bind_Ret_inv in Hrun as (p1 & ua & t1 & t2 & Hrun & [= <- <-] & _).
    apply bpu_probe_inv in Hrun as (s0 & Hs0 & _ & Hst).
    rewrite (stats_at_unit_insert u ua priv q _ _ Hs0 Hst).
    destruct (Z.eqb_spec priv q) as [-> | Hne].
    + rewrite decide_True by done. simplify_eq.
      eexists. split; [done|].
      destruct (_ =? BPU_HIT); simpl; naive_solver.
    + rewrite decide_False by done. exists s. naive_solver.
  - apply bind_Ret_inv in Hrun as (r & ua & t1 & t2 & Hrun & [= <- <-] & _).
    apply bpu_get_target_same_stats in Hrun as [Hrun _].
    exists s. rewrite (stats_at_unit u ua q Hrun). naive_solver.
  - apply bpu_add_inv in Hrun as [(_ & Hst & _) | (_ & _ & s0 & Hs0 & Hst)].
    + exists s. rewrite (stats_at_unit u u1 q Hst). naive_solver.
    + rewrite (stats_at_unit_insert u u1 priv q _ _ Hs0 Hst).
      destruct (Z.eqb_spec priv q) as [-> | Hne].
      * rewrite decide_True by done. simplify_eq.
        eexists. split; [done|]. simpl. naive_solver.
      * rewrite decide_False by done. exists s. naive_solver.
  - apply bpu_update_inv in Hrun as [(_ & Hst & _) | (_ & _ & s0 & Hs0 & Hst)].
    + exists s. rewrite (stats_at_unit u u1 q Hst). naive_solver.
    + rewrite (stats_at_unit_insert u u1 priv q _ _ Hs0 Hst).
      destruct (Z.eqb_spec priv q) as [-> | Hne].
      * rewrite decide_True by done. simplify_eq.
        eexists. split; [done|]. simpl. naive_solver.
      * rewrite decide_False by done. exists s. naive_solver.
Qed.

Lemma count_ops_cons f o os :
  count_ops f (o :: os) = (if f o then 1 else 0) + count_ops f os.
Proof.
  unfold count_ops. destruct (f o) eqn:Hf.
  - rewrite filter_cons_True by done. simpl length. lia.
  - rewrite filter_cons_False by (by rewrite Hf). lia.
Qed.

Lemma count_ops_nonneg f os : 0 <= count_ops f os.
Proof. unfold count_ops. lia. Qed.

(** X2. Whatever calls are made, at whatever levels and in whatever
    order, and as long as no counter wraps: at every privilege level
    [btb_probes] grows by the number of [bpu_probe] calls at that level,
    [btb_hits] by at most as much, [btb_inserts] by at most the number of
    [bpu_add] calls at that level and [btb_updates] by at most the number
    of [bpu_update] calls at that level; no counter ever goes down. *)
Theorem run_ops_statistics os :
  forall u u1 tr q s,
    run_ops os u = Ret tt u1 tr ->
    stats_at u q = Some s ->
    counters_below (Z.of_nat (length os)) s ->
    exists s1,
      stats_at u1 q = Some s1 /\
      btb_probes s1 = btb_probes s + count_ops (is_probe_at q) os /\
      btb_hits s <= btb_hits s1 <= btb_hits s + count_ops (is_probe_at q) os /\
      btb_inserts s <= btb_inserts s1
        <= btb_inserts s + count_ops (is_add_at q) os /\
      btb_updates s <= btb_updates s1
        <= btb_updates s + count_ops (is_update_at q) os.
Proof.
  induction os as [|o os IH]; intros u u1 tr q s Hrun Hs Hroom.
  - injection Hrun as <- _. exists s. split; [done|].
    unfold count_ops. simpl. lia.
  - simpl in Hrun.
    apply bind_Ret_inv in Hrun as ([] & ua & t1 & t2 & Hop & Hrest & _).
    destruct (run_op_counts o u ua t1 q s Hop Hs)
      as (sa & Hsa & Hp & Hh & Hi & Hu).
    destruct Hroom as ((Hp0 & Hp1) & (Hh0 & Hh1) & (Hi0 & Hi1) & (Hu0 & Hu1)).
    cbn [length] in Hp1, Hh1, Hi1, Hu1.
    rewrite Nat2Z.inj_succ in Hp1, Hh1, Hi1, Hu1.
    pose proof (Nat2Z.is_nonneg (length os)) as Hlen.
    rewrite !incr_no_overflow in Hp, Hh, Hi, Hu by lia.
    destruct (IH ua u1 t2 q sa Hrest Hsa) as (s1 & Hs1 & Hp' & Hh' & Hi' & Hu').
    { unfold counters_below.
      destruct (is_probe_at q o); naive_solver lia. }
    exists s1. split; [done|]. rewrite !count_ops_cons.
    pose proof (count_ops_nonneg (is_probe_at q) os).
    pose proof (count_ops_nonneg (is_add_at q) os).
    pose proof (count_ops_nonneg (is_update_at q) os).
    destruct (is_probe_at q o), (is_add_at q o), (is_update_at q o);
      naive_solver lia.
Qed.

(** *** A probe that returns, whatever the collaborators answer *)

Ltac forall_events :=
  repeat (apply List.Forall_cons; [(by left) || (by right)|]);
  apply List.Forall_nil.

(** The part of [bpu_probe] after the two increments, seen from the
    packet [q] it works on. *)
Lemma probe_tail_inv pc q u p1 u1 tr :
  bind (probe_guard q) (fun g =>
    bind (if g : bool
          then bind (call_ap_probe pc) (fun r => ret (set_ap_probe_status r q))
          else ret q) (fun p0 =>
    ret (set_bpu_probe_status
           (c_and (btb_probe_status p0) (ap_probe_status p0)) p0))) u
    = Ret p1 u1 tr ->
  btb_probe_status p1 = btb_probe_status q /\
  btb_entry p1 = btb_entry q /\
  bpu_probe_status p1 = c_and (btb_probe_status p1) (ap_probe_status p1) /\
  Forall (fun ev => ev = EvDeref (btb_entry q) \/ ev = EvApProbe pc) tr /\
  (ap u = None -> tr = []) /\
  ((ap_probe_status p1 = ap_probe_status q /\ u1 = u /\
    ~ In (EvApProbe pc) tr) \/
   (exists a, ap u = Some a /\
      ap_probe_status p1 = (adaptive_predictor_probe a pc).2 /\
      In (EvApProbe pc) tr)).
Proof.
  intros Hrun. destruct u as [b a sts].
  unfold probe_guard, bind, ret, ap_present, deref, call_ap_probe in Hrun.
  simpl in Hrun.
  destruct a as [a|]; simpl in Hrun.
  - destruct (btb_probe_status q =? BPU_MISS); simpl in Hrun.
    + destruct (adaptive_predictor_probe a pc) as [a1 r] eqn:Hq. simpl in Hrun.
      injection Hrun as <- <- <-. simpl.
      repeat split; try done; try forall_events.
      right. exists a. rewrite Hq. simpl. naive_solver.
    + destruct (entry_at b (btb_entry q)) as [ent|]; [|done]. simpl in Hrun.
      destruct (type ent =? BRANCH_COND); simpl in Hrun.
      * destruct (adaptive_predictor_probe a pc) as [a1 r] eqn:Hq. simpl in Hrun.
        injection Hrun as <- <- <-. simpl.
        repeat split; try done; try forall_events.
        right. exists a. rewrite Hq. simpl. naive_solver.
      * injection Hrun as <- <- <-. simpl.
        repeat split; try done; try forall_events.
        left. naive_solver.
  - injection Hrun as <- <- <-. simpl.
    repeat split; try done; try forall_events. left. naive_solver.
Qed.

Lemma stat_incr_ap priv f u u1 tr :
  stat_incr priv f u = Ret tt u1 tr -> ap u1 = ap u /\ btb u1 = btb u /\ tr = [].
Proof.
  unfold stat_incr. destruct (stats_at u priv); [|done].
  by intros [= <- <-].
Qed.

Lemma bpu_probe_packet_inv u pc p priv p1 u1 tr :
  bpu_probe pc p priv u = Ret p1 u1 tr ->
  btb_probe_status p1 = (btb_probe (btb u) pc (btb_entry p)).1.2 /\
  btb_entry p1 = (btb_probe (btb u) pc (btb_entry p)).2 /\
  bpu_probe_status p1 = c_and (btb_probe_status p1) (ap_probe_status p1) /\
  (exists rest,
     tr = EvBtbProbe pc :: rest /\
     Forall (fun ev => ev = EvDeref (btb_entry p1) \/ ev = EvApProbe pc) rest /\
     (ap u = None -> rest = [])) /\
  ((ap_probe_status p1 = BPU_HIT /\ ap u1 = ap u /\ ~ In (EvApProbe pc) tr) \/
   (exists a, ap u = Some a /\
      ap_probe_status p1 = (adaptive_predictor_probe a pc).2 /\
      In (EvApProbe pc) tr)).
Proof.
  unfold bpu_probe. cbv zeta. intros Hrun.
  apply bind_Ret_inv in Hrun as (r & ua & t1 & t2 & H1 & Hrun & ->).
  unfold call_btb_probe in H1. simpl in H1.
  destruct (btb_probe (btb u) pc (btb_entry p)) as [[b st] e] eqn:Hp.
  injection H1 as <- <- <-. simpl in Hrun.
  apply bind_Ret_inv in Hrun as ([] & ub & t3 & t4 & H2 & Hrun & ->).
  apply bind_Ret_inv in Hrun as ([] & uc & t5 & t6 & H3 & Hrun & ->).
  assert (Hub : ap ub = ap u /\ t3 = []).
  { unfold when, ret in H2. destruct (st =? BPU_HIT).
    - by apply stat_incr_ap in H2 as (-> & _ & ->).
    - by injection H2 as <- <-. }
  destruct Hub as [Hub ->].
  apply stat_incr_ap in H3 as (Huc & _ & ->).
  apply probe_tail_inv in Hrun as (Hst & He & Hbpu & Hev & Hnone & Hap).
  simpl in Hst, He, Hev, Hap. simpl.
  split; [done|]. split; [done|]. split; [done|].
  split.
  { exists t6. split; [done|]. split; [by rewrite He|].
    intros Hn. apply Hnone. congruence. }
  destruct Hap as [(Hs & -> & Hn) | (a & Ha & Hs & Hin)].
  - left. split; [done|]. split; [congruence|].
    intros [Hd | Hd]; [done | by apply Hn].
  - right. exists a. split; [congruence|]. split; [done|]. by right.
Qed.

(** X3. Whatever [btb_probe] and [adaptive_predictor_probe] return, the
    [bpu_probe_status] of a probe that returns is 0 or 1: it is 1 exactly
    when both other statuses are non-zero, so it is MISS whenever the BTB
    status is MISS, whatever the predictor says. *)
Theorem bpu_probe_status_normalised u pc p priv p1 u1 tr :
  bpu_probe pc p priv u = Ret p1 u1 tr ->
  btb_probe_status p1 = (btb_probe (btb u) pc (btb_entry p)).1.2 /\
  status_ok (bpu_probe_status p1) /\
  (bpu_probe_status p1 = BPU_HIT <->
     btb_probe_status p1 <> 0 /\ ap_probe_status p1 <> 0) /\
  (btb_probe_status p1 = BPU_MISS -> bpu_probe_status p1 = BPU_MISS).
Proof.
  intros Hrun.
  apply bpu_probe_packet_inv in Hrun as (Hst & _ & Hbpu & _).
  split; [done|]. rewrite Hbpu.
  unfold status_ok, c_and, BPU_HIT, BPU_MISS.
  destruct (Z.eqb_spec (btb_probe_status p1) 0);
    destruct (Z.eqb_spec (ap_probe_status p1) 0); naive_solver.
Qed.

(** X4. A probe that returns has called [btb_probe] once, first, and
    after it only read the entry the lookup stored or called
    [adaptive_predictor_probe]: never an add, an update or a flush of
    either structure.  The BTB it leaves is the one [btb_probe] returned. *)
Theorem bpu_probe_only_probes u pc p priv p1 u1 tr :
  bpu_probe pc p priv u = Ret p1 u1 tr ->
  btb u1 = (btb_probe (btb u) pc (btb_entry p)).1.1 /\
  exists rest,
    tr = EvBtbProbe pc :: rest /\
    Forall (fun ev => ev = EvDeref (btb_entry p1) \/ ev = EvApProbe pc) rest /\
    (ap u = None -> rest = []).
Proof.
  intros Hrun.
  destruct (bpu_probe_inv _ _ _ _ _ _ _ Hrun) as (s & _ & Hbtb & _).
  split; [done|].
  apply bpu_probe_packet_inv in Hrun as (_ & _ & _ & (rest & -> & Hev & Hn) & _).
  by exists rest.
Qed.

(** X5. In bimodal mode [bpu_probe] needs nothing of the BTB: with no
    predictor and a valid [priv] it returns whatever [btb_probe] answers,
    even a HIT with a pointer that holds no entry, because the entry is
    never read; its only event is the lookup and [ap_probe_status] is
    HIT. *)
Theorem bpu_probe_bimodal u pc p priv :
  ap u = None -> valid_priv u priv ->
  exists p1 u1,
    bpu_probe pc p priv u = Ret p1 u1 [EvBtbProbe pc] /\
    btb_probe_status p1 = (btb_probe (btb u) pc (btb_entry p)).1.2 /\
    btb_entry p1 = (btb_probe (btb u) pc (btb_entry p)).2 /\
    ap_probe_status p1 = BPU_HIT /\
    ap u1 = None.
Proof.
  intros Hap [s Hs].
  assert (Hs0 : forall b0 a0,
    stats_at (mkBranchPredUnit b0 a0 (stats u)) priv = Some s) by done.
  assert (Hs1 : forall b0 a0 f,
    stats_at (mkBranchPredUnit b0 a0 (<[Z.to_nat priv := f]> (stats u))) priv = Some f).
  { intros. by eapply stats_at_insert. }
  unfold_ops. simpl.
  destruct (btb_probe (btb u) pc (btb_entry p)) as [[b st] e]. simpl.
  destruct (st =? BPU_HIT); simpl.
  - rewrite Hs0. simpl. rewrite Hs1. simpl. rewrite Hap. simpl.
    do 2 eexists. split; [reflexivity|]. by simpl.
  - rewrite Hs0. simpl. rewrite Hap. simpl.
    do 2 eexists. split; [reflexivity|]. by simpl.
Qed.

Lemma bind_ext {A B} (m : M A) (k k' : A -> M B) u :
  (forall a u1, k a u1 = k' a u1) -> bind m k u = bind m k' u.
Proof. intros Hk. unfold bind. destruct (m u); [|done|done]. by rewrite Hk. Qed.

(** The part of [bpu_probe] after the two increments does not look at
    the [bpu_probe_status] it is about to write. *)
Lemma probe_tail_forgets pc a b c c' e u :
  bind (probe_guard (mkBPUResponsePkt a b c e)) (fun g =>
    bind (if g : bool
          then bind (call_ap_probe pc)
                 (fun r => ret (set_ap_probe_status r (mkBPUResponsePkt a b c e)))
          else ret (mkBPUResponsePkt a b c e)) (fun p0 =>
    ret (set_bpu_probe_status
           (c_and (btb_probe_status p0) (ap_probe_status p0)) p0))) u
  =
  bind (probe_guard (mkBPUResponsePkt a b c' e)) (fun g =>
    bind (if g : bool
          then bind (call_ap_probe pc)
                 (fun r => ret (set_ap_probe_status r (mkBPUResponsePkt a b c' e)))
          else ret (mkBPUResponsePkt a b c' e)) (fun p0 =>
    ret (set_bpu_probe_status
           (c_and (btb_probe_status p0) (ap_probe_status p0)) p0))) u.
Proof.
  destruct u as [bt [ap0|] sts];
    unfold probe_guard, bind, ret, ap_present, deref, call_ap_probe; simpl;
    [|done].
  destruct (b =? BPU_MISS); simpl.
  - by destruct (adaptive_predictor_probe ap0 pc).
  - destruct (entry_at bt e) as [ent|]; [|done]. simpl.
    destruct (type ent =? BRANCH_COND); simpl; [|done].
    by destruct (adaptive_predictor_probe ap0 pc).
Qed.

(** X6. [bpu_probe] overwrites the three statuses of the packet it is
    given: two packets with the same [btb_entry] give the same result, so
    nothing of an earlier response shows in a later one. *)
Theorem bpu_probe_forgets_packet u pc p p' priv :
  btb_entry p = btb_entry p' ->
  bpu_probe pc p priv u = bpu_probe pc p' priv u.
Proof.
  destruct p as [a1 b1 c1 e1], p' as [a2 b2 c2 e2].
  cbn [btb_entry]. intros ->.
  unfold bpu_probe. cbv zeta. simpl.
  apply bind_ext. intros r ua.
  apply bind_ext. intros [] ub.
  apply bind_ext. intros [] uc.
  apply probe_tail_forgets.
Qed.

(** *** Flush *)

Lemma bpu_flush_closed u :
  bpu_flush u =
    Ret tt
      (mkBranchPredUnit (btb_flush (btb u)) (adaptive_predictor_flush <$> ap u)
         (stats u))
      (EvBtbFlush :: if ap u is Some _ then [EvApFlush] else []).
Proof. unfold_ops. by destruct u as [b [a|] sts]. Qed.

(** X7. [bpu_flush] returns with or without a predictor, flushes the BTB
    and then the predictor when there is one, and leaves the statistics
    and the mode as they are; when the flushes of the two structures are
    idempotent, a second [bpu_flush] changes nothing more. *)
Theorem bpu_flush_idempotent u :
  flush_idempotent ->
  exists u1 t,
    bpu_flush u = Ret tt u1 t /\
    bpu_flush u1 = Ret tt u1 t /\
    t = EvBtbFlush :: (if ap u is Some _ then [EvApFlush] else []) /\
    stats u1 = stats u /\
    (ap u1 = None <-> ap u = None).
Proof.
  intros [Hb Ha]. rewrite bpu_flush_closed. do 2 eexists.
  split; [reflexivity|]. rewrite bpu_flush_closed. simpl.
  destruct (ap u) as [a|]; simpl; rewrite Hb, ?Ha; done.
Qed.

(** *** Target resolution *)

Lemma bpu_get_target_dangling u pc e :
  entry_at (btb u) e = None -> bpu_get_target pc e u = Undefined.
Proof. intros He. unfold_ops. by rewrite He. Qed.

(** Every way [bpu_get_target] can end on an address that holds an
    entry. *)
Lemma bpu_get_target_cases u pc e ent :
  entry_at (btb u) e = Some ent ->
  (type ent <> BRANCH_UNCOND /\ type ent <> BRANCH_COND /\
   bpu_get_target pc e u = AssertFail) \/
  ((type ent = BRANCH_UNCOND \/ type ent = BRANCH_COND) /\
   exists r u1 tr,
     bpu_get_target pc e u = Ret r u1 tr /\
     (r = 0 \/ r = target ent) /\
     btb u1 = btb u /\ stats u1 = stats u /\
     Forall (fun ev => is_btb_event ev = false) tr).
Proof.
  intros He.
  destruct (Z.eqb_spec (type ent) BRANCH_UNCOND) as [Hu | Hu].
  { right. split; [by left|].
    rewrite (bpu_get_target_uncond_run u pc e ent He Hu).
    do 3 eexists. split; [reflexivity|]. repeat split; [by right|].
    by repeat constructor. }
  destruct (Z.eqb_spec (type ent) BRANCH_COND) as [Hc | Hc].
  2: { left. split; [done|]. split; [done|].
       unfold_ops. rewrite He. simpl.
       destruct (Z.eqb_spec (type ent) BRANCH_UNCOND); [done|].
       by destruct (Z.eqb_spec (type ent) BRANCH_COND). }
  right. split; [by right|].
  assert (Hne : BRANCH_UNCOND <> BRANCH_COND) by congruence.
  destruct (ap u) as [a|] eqn:Hap.
  - rewrite (bpu_get_target_adaptive_run u pc e ent a Hne Hap He Hc).
    destruct (_ =? 0); do 3 eexists; (split; [reflexivity|]); simpl;
      repeat split; try (by left); try (by right); by repeat constructor.
  - rewrite (bpu_get_target_bimodal_run u pc e ent Hne Hap He Hc).
    destruct (1 <? pred ent); do 3 eexists; (split; [reflexivity|]);
      repeat split; try (by left); try (by right); by repeat constructor.
Qed.

(** X8. [bpu_get_target] ends in one of three ways, decided by the entry
    alone: on an address that holds no entry it has no defined behaviour
    (nothing is checked before the first read); on an entry of another
    type than the two of the switch it stops at the assertion; otherwise
    it returns 0 or the stored target, and neither calls the BTB nor
    changes the BTB or the statistics. *)
Theorem bpu_get_target_outcomes u pc e :
  match entry_at (btb u) e with
  | None => bpu_get_target pc e u = Undefined
  | Some ent =>
      if (type ent =? BRANCH_UNCOND) || (type ent =? BRANCH_COND)
      then exists r u1 tr,
             bpu_get_target pc e u = Ret r u1 tr /\
             (r = 0 \/ r = target ent) /\
             btb u1 = btb u /\ stats u1 = stats u /\
             Forall (fun ev => is_btb_event ev = false) tr
      else bpu_get_target pc e u = AssertFail
  end.
Proof.
  destruct (entry_at (btb u) e) as [ent|] eqn:He;
    [|by apply bpu_get_target_dangling].
  destruct (bpu_get_target_cases u pc e ent He)
    as [(Hu & Hc & Hrun) | ([Hty | Hty] & Hrun)].
  - destruct (Z.eqb_spec (type ent) BRANCH_UNCOND); [done|].
    by destruct (Z.eqb_spec (type ent) BRANCH_COND).
  - rewrite Hty, Z.eqb_refl. exact Hrun.
  - rewrite Hty, Z.eqb_refl, orb_true_r. exact Hrun.
Qed.

(** X9. After a probe that hit in the BTB, [bpu_get_target] on the entry
    of the packet is never undefined: the entry is there, and the call
    returns 0 or its target, or stops at the assertion when the type of
    the entry is not one of the two. *)
Theorem bpu_get_target_after_hit u pc p priv :
  btb_probe_contract -> valid_priv u priv ->
  exists p1 u1 tr,
    bpu_probe pc p priv u = Ret p1 u1 tr /\
    (btb_probe_status p1 = BPU_HIT ->
     exists ent,
       entry_at (btb u1) (btb_entry p1) = Some ent /\
       ((type ent <> BRANCH_UNCOND /\ type ent <> BRANCH_COND /\
         bpu_get_target pc (btb_entry p1) u1 = AssertFail) \/
        (exists r u2 t2,
           bpu_get_target pc (btb_entry p1) u1 = Ret r u2 t2 /\
           (r = 0 \/ r = target ent)))).
Proof.
  intros Hbtb [s Hs].
  destruct (btb_probe (btb u) pc (btb_entry p)) as [[b st] e] eqn:Hp.
  destruct (Hbtb _ _ _ _ _ _ Hp) as [Hst Hent].
  destruct (bpu_probe_cases u pc p priv b st e s Hp Hs Hst Hent)
    as [[_ Hrun] | (a & _ & _ & Hrun)];
    rewrite Hrun; do 3 eexists; (split; [reflexivity|]); simpl;
    intros Hhit; destruct (Hent Hhit) as [ent He]; exists ent;
    (split; [done|]).
  all: match goal with
       | |- context [bpu_get_target ?pc0 ?e0 ?u1] =>
           destruct (bpu_get_target_cases u1 pc0 e0 ent He)
             as [Hbad | (_ & r & u2 & t2 & Hget & Hr & _)]
       end.
  all: try (by left).
  all: right; by exists r, u2, t2.
Qed.

(** *** Allocation and refresh together *)


(** X11. After a probe whose [bpu_probe_status] is HIT, [bpu_add] with
    the packet of that probe does nothing, for any address, type and
    privilege level: no call, no counter, the unit as it was. *)
Theorem bpu_add_after_full_hit u pc p priv p1 u1 tr :
  bpu_probe pc p priv u = Ret p1 u1 tr ->
  bpu_probe_status p1 = BPU_HIT ->
  forall pc' ty priv', bpu_add pc' ty p1 priv' u1 = Ret tt u1 [].
Proof.
  intros Hrun Hhit pc' ty priv'.
  apply bpu_probe_packet_inv in Hrun as (_ & _ & Hbpu & _).
  rewrite Hbpu in Hhit. unfold c_and, BPU_HIT in Hhit.
  destruct (Z.eqb_spec (btb_probe_status p1) 0) as [|Hb]; [done|].
  destruct (Z.eqb_spec (ap_probe_status p1) 0) as [|Ha]; [done|].
  unfold_ops. destruct u1 as [b [a|] sts]; simpl.
  all: destruct (Z.eqb_spec (btb_probe_status p1) 0); [done|]; simpl.
  all: destruct (ty =? BRANCH_COND); simpl; try done.
  by destruct (Z.eqb_spec (ap_probe_status p1) 0).
Qed.

(** X12. No call checks [priv] against the statistics array.  With a
    [priv] outside the array, [bpu_probe] has no defined behaviour;
    [bpu_add] has none exactly when it counts an insert
    ([btb_probe_status] 0) and [bpu_update] exactly when it counts an
    update ([btb_probe_status] not 0): in the other case each returns
    without touching the array. *)
Theorem stats_index_unchecked u pc p priv :
  stats_at u priv = None ->
  bpu_probe pc p priv u = Undefined /\
  (forall ty, bpu_add pc ty p priv u = Undefined <-> btb_probe_status p = 0) /\
  (forall tgt taken ty,
     bpu_update pc tgt taken ty p priv u = Undefined <-> btb_probe_status p <> 0).
Proof.
  intros Hs.
  assert (Hs0 : forall b0 a0,
    stats_at (mkBranchPredUnit b0 a0 (stats u)) priv = None) by done.
  split; [|split].
  - unfold_ops. simpl.
    destruct (btb_probe (btb u) pc (btb_entry p)) as [[b st] e]. simpl.
    destruct (st =? BPU_HIT); simpl; by rewrite Hs0.
  - intros ty. unfold_ops. destruct u as [b a sts]. simpl in *.
    destruct (Z.eqb_spec (btb_probe_status p) 0) as [H0 | H0]; simpl.
    + by rewrite Hs0.
    + split; [|done].
      destruct a; simpl; [|done].
      destruct (ty =? BRANCH_COND); simpl; [|done].
      by destruct (ap_probe_status p =? 0).
  - intros tgt taken ty. unfold_ops. destruct u as [b a sts]. simpl in *.
    destruct (Z.eqb_spec (btb_probe_status p) 0) as [H0 | H0]; simpl.
    + split; [|done].
      destruct a; simpl; [|done].
      destruct (ty =? BRANCH_COND); simpl; [|done].
      by destruct (ap_probe_status p =? 0).
    + by rewrite Hs0.
Qed.

(** X13. With a predictor, a probe that hits an entry whose type is not
    [BRANCH_COND] does not ask the predictor and leaves [ap_probe_status]
    at HIT.  With that packet, [bpu_add] for a [BRANCH_COND] branch does
    nothing, and [bpu_update] for a [BRANCH_COND] branch calls
    [adaptive_predictor_update] for the address, although the predictor
    was not probed for it. *)
Theorem bpu_update_after_unprobed_hit u pc p priv a :
  btb_probe_contract -> valid_priv u priv -> ap u = Some a ->
  exists p1 u1 tr,
    bpu_probe pc p priv u = Ret p1 u1 tr /\
    (forall ent,
       btb_probe_status p1 = BPU_HIT ->
       entry_at (btb u1) (btb_entry p1) = Some ent ->
       type ent <> BRANCH_COND ->
       ~ In (EvApProbe pc) tr /\
       ap_probe_status p1 = BPU_HIT /\
       ap u1 = Some a /\
       bpu_add pc BRANCH_COND p1 priv u1 = Ret tt u1 [] /\
       forall tgt taken,
         exists u2 t2,
           bpu_update pc tgt taken BRANCH_COND p1 priv u1 = Ret tt u2 t2 /\
           In (EvApUpdate pc taken) t2 /\
           ap u2 = Some (adaptive_predictor_update a pc taken)).
Proof.
  intros Hbtb [s Hs] Hap.
  destruct (btb_probe (btb u) pc (btb_entry p)) as [[b st] e] eqn:Hp.
  destruct (Hbtb _ _ _ _ _ _ Hp) as [Hst Hent].
  destruct (bpu_probe_cases u pc p priv b st e s Hp Hs Hst Hent)
    as [[Hc Hrun] | (a' & Ha' & Hc & Hrun)];
    rewrite Hrun; do 3 eexists; (split; [reflexivity|]); simpl;
    intros ent Hhit He Hty.
  - rewrite Hap. subst st.
    split. { intros [Hd | [Hd | []]]; discriminate. }
    split; [done|]. split; [done|].
    split.
    { unfold_ops. simpl. rewrite Z.eqb_refl. done. }
    intros tgt taken.
    erewrite bpu_update_run by (by eapply stats_at_insert).
    simpl. rewrite Z.eqb_refl. simpl.
    do 2 eexists. split; [reflexivity|]. split; [|done].
    right. by left.
  - exfalso. destruct Hc as [-> | (_ & ent' & He' & Hty')]; [done|]. congruence.
Qed.

End Coverage.

(** * The further theorems at work on the one-slot instance *)

Lemma toy_flush_idempotent : @flush_idempotent toy.
Proof. by split. Qed.


Lemma run_ops_statistics_witness :
  exists u1 tr s1,
    @run_ops toy toy_calls (toy_empty_unit (Some None)) = Ret tt u1 tr /\
    stats_at (toy_empty_unit (Some None)) 0 = Some zero_stats /\
    @counters_below toy (Z.of_nat (length toy_calls)) zero_stats /\
    stats_at u1 0 = Some s1 /\
    btb_probes s1 = 1 /\ 0 <= btb_hits s1 <= 1 /\
    0 <= btb_inserts s1 <= 1 /\ 0 <= btb_updates s1 <= 1.
Proof.
  assert (Hroom : @counters_below toy (Z.of_nat (length toy_calls)) zero_stats).
  { unfold counters_below. simpl. lia. }
  destruct (@run_ops toy toy_calls (toy_empty_unit (Some None)))
    as [[] u1 tr| |] eqn:Hrun;
    [|vm_compute in Hrun; discriminate|vm_compute in Hrun; discriminate].
  destruct (run_ops_statistics (H := toy) toy_calls (toy_empty_unit (Some None))
              u1 tr 0 zero_stats Hrun eq_refl Hroom)
    as (s1 & Hs1 & Hp & Hh & Hi & Hu).
  exists u1, tr, s1. split; [reflexivity|]. split; [reflexivity|].
  split; [exact Hroom|].
  split; [exact Hs1|]. split; [exact Hp|]. split; [exact Hh|].
  split; [exact Hi|exact Hu].
Defined.

Lemma bpu_probe_status_normalised_witness :
  exists p1 u1 tr,
    bpu_probe 4096 empty_pkt 0 (toy_unit 4096 cond_entry (Some None)) = Ret p1 u1 tr /\
    status_ok (bpu_probe_status p1) /\
    (bpu_probe_status p1 = BPU_HIT <->
       btb_probe_status p1 <> 0 /\ ap_probe_status p1 <> 0).
Proof.
  destruct (bpu_probe 4096 empty_pkt 0 (toy_unit 4096 cond_entry (Some None)))
    as [p1 u1 tr| |] eqn:Hrun;
    [|vm_compute in Hrun; discriminate|vm_compute in Hrun; discriminate].
  exists p1, u1, tr. split; [reflexivity|].
  destruct (bpu_probe_status_normalised (H := toy)
              (toy_unit 4096 cond_entry (Some None)) 4096 empty_pkt 0 p1 u1 tr Hrun)
    as (_ & Hok & Hiff & _).
  split; [exact Hok | exact Hiff].
Defined.

Lemma bpu_probe_only_probes_witness :
  exists p1 u1 tr rest,
    bpu_probe 4096 empty_pkt 0 (toy_unit 4096 cond_entry (Some None)) = Ret p1 u1 tr /\
    tr = EvBtbProbe 4096 :: rest /\
    Forall (fun ev => ev = EvDeref (btb_entry p1) \/ ev = EvApProbe 4096) rest.
Proof.
  destruct (bpu_probe 4096 empty_pkt 0 (toy_unit 4096 cond_entry (Some None)))
    as [p1 u1 tr| |] eqn:Hrun;
    [|vm_compute in Hrun; discriminate|vm_compute in Hrun; discriminate].
  destruct (bpu_probe_only_probes (H := toy)
              (toy_unit 4096 cond_entry (Some None)) 4096 empty_pkt 0 p1 u1 tr Hrun)
    as (_ & rest & Htr & Hev & _).
  exists p1, u1, tr, rest. split; [reflexivity|].
  split; [exact Htr | exact Hev].
Defined.

(** A BTB that answers HIT for 4096 while the packet's pointer is not
    followed: the bimodal probe needs no entry. *)
Lemma bpu_probe_bimodal_witness :
  ap (toy_unit 4096 cond_entry None) = None /\
  valid_priv (toy_unit 4096 cond_entry None) 0 /\
  exists p1 u1,
    bpu_probe 4096 empty_pkt 0 (toy_unit 4096 cond_entry None)
      = Ret p1 u1 [EvBtbProbe 4096] /\
    ap_probe_status p1 = BPU_HIT.
Proof.
  split; [reflexivity|]. split; [apply toy_valid_priv|].
  destruct (bpu_probe_bimodal (H := toy) (toy_unit 4096 cond_entry None) 4096
              empty_pkt 0 eq_refl (toy_valid_priv _ _ _))
    as (p1 & u1 & Hrun & _ & _ & Hap & _).
  by exists p1, u1.
Defined.

Lemma bpu_probe_forgets_packet_witness :
  btb_entry hit_pkt = btb_entry (mkBPUResponsePkt 0 0 0 toy_slot) /\
  bpu_probe 4096 hit_pkt 0 (toy_unit 4096 cond_entry (Some None))
  = bpu_probe 4096 (mkBPUResponsePkt 0 0 0 toy_slot) 0
      (toy_unit 4096 cond_entry (Some None)).
Proof.
  split; [reflexivity|].
  apply (bpu_probe_forgets_packet (H := toy)). reflexivity.
Defined.

Lemma bpu_flush_idempotent_witness :
  @flush_idempotent toy /\
  exists u1 t,
    bpu_flush (toy_unit 4096 cond_entry (Some (Some (4096, 3)))) = Ret tt u1 t /\
    bpu_flush u1 = Ret tt u1 t /\
    t = [EvBtbFlush; EvApFlush] /\
    stats u1 = replicate 4 zero_stats.
Proof.
  split; [exact toy_flush_idempotent|].
  destruct (bpu_flush_idempotent (H := toy)
              (toy_unit 4096 cond_entry (Some (Some (4096, 3)))) toy_flush_idempotent)
    as (u1 & t & H1 & H2 & Ht & Hs & _).
  by exists u1, t.
Defined.

Lemma bpu_get_target_after_hit_witness :
  @btb_probe_contract toy /\
  valid_priv (toy_unit 4096 cond_entry None) 0 /\
  exists p1 u1 tr,
    bpu_probe 4096 empty_pkt 0 (toy_unit 4096 cond_entry None) = Ret p1 u1 tr /\
    (btb_probe_status p1 = BPU_HIT ->
     exists ent,
       entry_at (btb u1) (btb_entry p1) = Some ent /\
       ((type ent <> @BRANCH_UNCOND toy /\ type ent <> @BRANCH_COND toy /\
         bpu_get_target 4096 (btb_entry p1) u1 = AssertFail) \/
        (exists r u2 t2,
           bpu_get_target 4096 (btb_entry p1) u1 = Ret r u2 t2 /\
           (r = 0 \/ r = target ent)))).
Proof.
  split; [exact toy_btb_probe_contract|]. split; [apply toy_valid_priv|].
  apply (bpu_get_target_after_hit (H := toy) (toy_unit 4096 cond_entry None) 4096
           empty_pkt 0 toy_btb_probe_contract (toy_valid_priv _ _ _)).
Defined.


Lemma bpu_add_after_full_hit_witness :
  exists p1 u1 tr,
    bpu_probe 4096 empty_pkt 0 (toy_unit 4096 cond_entry (Some (Some (4096, 3))))
      = Ret p1 u1 tr /\
    bpu_probe_status p1 = BPU_HIT /\
    bpu_add 4096 1 p1 9 u1 = Ret tt u1 [].
Proof.
  destruct (bpu_probe 4096 empty_pkt 0
              (toy_unit 4096 cond_entry (Some (Some (4096, 3)))))
    as [p1 u1 tr| |] eqn:Hrun;
    [|vm_compute in Hrun; discriminate|vm_compute in Hrun; discriminate].
  assert (Hhit : bpu_probe_status p1 = BPU_HIT).
  { vm_compute in Hrun. by injection Hrun as <- _ _. }
  exists p1, u1, tr. split; [reflexivity|]. split; [exact Hhit|].
  apply (bpu_add_after_full_hit (H := toy)
           (toy_unit 4096 cond_entry (Some (Some (4096, 3)))) 4096 empty_pkt 0
           p1 u1 tr Hrun Hhit).
Defined.

Lemma stats_index_unchecked_witness :
  stats_at (toy_unit 4096 cond_entry None) 4 = None /\
  stats_at (toy_unit 4096 cond_entry None) (-1) = None /\
  bpu_probe 4096 empty_pkt 4 (toy_unit 4096 cond_entry None) = Undefined /\
  bpu_add 4096 1 empty_pkt 4 (toy_unit 4096 cond_entry None) = Undefined /\
  bpu_update 4096 8192 1 1 hit_pkt (-1) (toy_unit 4096 cond_entry None) = Undefined.
Proof.
  split; [reflexivity|]. split; [reflexivity|].
  destruct (stats_index_unchecked (H := toy) (toy_unit 4096 cond_entry None) 4096
              empty_pkt 4 eq_refl) as (Hprobe & Hadd & _).
  destruct (stats_index_unchecked (H := toy) (toy_unit 4096 cond_entry None) 4096
              hit_pkt (-1) eq_refl) as (_ & _ & Hupd).
  split; [exact Hprobe|]. split; [by apply Hadd|]. by apply Hupd.
Defined.

Lemma bpu_update_after_unprobed_hit_witness :
  @btb_probe_contract toy /\
  valid_priv (toy_unit 16384 uncond_entry (Some None)) 0 /\
  ap (toy_unit 16384 uncond_entry (Some None)) = Some None /\
  exists p1 u1 tr,
    bpu_probe 16384 empty_pkt 0 (toy_unit 16384 uncond_entry (Some None))
      = Ret p1 u1 tr /\
    btb_probe_status p1 = BPU_HIT /\
    entry_at (btb u1) (btb_entry p1) = Some uncond_entry /\
    type uncond_entry <> @BRANCH_COND toy /\
    ~ In (EvApProbe 16384) tr /\
    exists u2 t2,
      bpu_update 16384 20480 1 (@BRANCH_COND toy) p1 0 u1 = Ret tt u2 t2 /\
      In (EvApUpdate 16384 1) t2.
Proof.
  split; [exact toy_btb_probe_contract|]. split; [apply toy_valid_priv|].
  split; [reflexivity|].
  destruct (bpu_update_after_unprobed_hit (H := toy)
              (toy_unit 16384 uncond_entry (Some None)) 16384 empty_pkt 0 None
              toy_btb_probe_contract (toy_valid_priv _ _ _) eq_refl)
    as (p1 & u1 & tr & Hrun & Hrest).
  exists p1, u1, tr. split; [exact Hrun|].
  vm_compute in Hrun. injection Hrun as <- <- <-.
  split; [reflexivity|]. split; [reflexivity|]. split; [discriminate|].
  destruct (Hrest uncond_entry eq_refl eq_refl) as (Hno & _ & _ & _ & Hupd);
    [discriminate|].
  split; [exact Hno|].
  destruct (Hupd 20480 1) as (u2 & t2 & Hrun2 & Hin & _).
  by exists u2, t2.
Defined.
